(* ===== verification/_CoqProject ===== *)
-Q . S2P
Prelude.v
QueryDict.v
Datestamp.v
DatestampFormat.v
RecordStore.v
TokenStore.v
Concurrency.v
Response.v
Pagination.v
Validator.v
Dispatcher.v
Harvest.v
SourceRefresh.v
