(* ===== verification/Prelude.v ===== *)
(** * A verification development of proaixy's OAI-PMH endpoint

    ** The program

    [src/oai/views.py] is the server side of an OAI-PMH harvesting
    protocol, written as Django views.  [endpoint] (lines 30-53) reads the
    [verb] parameter, builds the context every response shares (the
    request URL and the request time, to the second, with a [Z]) and
    dispatches: [identify] (55-62) for [Identify]; for [ListRecords] and
    [ListIdentifiers], [resumeRequest] (147-159) when a [resumptionToken]
    is given, and otherwise the argument validator [getListQuery] (64-118)
    followed by the pagination engine [handleListQuery] (121-131), which
    calls [createResumptionToken] (134-145) when more than one page of
    matches remains; [formatError] (25-28) renders the [badVerb],
    [badArgument] and [badResumptionToken] pages.  The view reads two
    tables ([OaiRecord], [OaiSet]) and reads and writes a third
    ([ResumptionToken]); models, settings, [genkey], [to_kv_pairs] and
    pyoai's datestamp parser live outside [src/].

    ** The development, file by file (in [_CoqProject] order)

    - [Prelude] (this file): the Python and Django runtime the view relies
      on: the uncaught exceptions [exn], a state-and-exception monad
      [PyM] (effects on the store survive an exception, as autocommitted
      writes do) with its notation in [proaixy_scope], truthiness
      ([truthy], [nonempty]), [objects_get] for [Model.objects.get] and
      [qs_slice] for queryset slicing with Django's negative-index
      assertion; hint databases [proaixy] and [proaixy_rw]; lemmas on
      tables kept as [gmap]s.
    - [QueryDict]: [request.GET] as its ordered pairs; [qd_get],
      [qd_contains], [qd_dict] ([request.GET.dict()]), [dict_pop]; the
      order [for key in d] visits keys is the interface [DictIter] (each
      key once, deletion keeps the others' order), since it is hash order
      in the Python 2 of the source and insertion order from CPython 3.7;
      [insertion_order] is the instance the examples run with.
    - [Datestamp]: Python [datetime] as a record with its lexicographic
      order [dt_lt], [isoformat], the parser interface [DatestampParser]
      and its instance [tolerant_parser] written from the specification.
    - [DatestampFormat]: the string lemmas ([str_split] over separators,
      [pad_digits] and [digits_val], [strip_Z]) that make the parser read
      back what [isoformat] prints.
    - [RecordStore]: the read-only tables, the query dictionary
      [query_params], the filter ([record_matches], from the
      specification, the model fields being outside [src/]), [oaiset_get]
      and [earliest_record]; a three-record example store.
    - [TokenStore]: [ResumptionToken] rows in a [gmap] keyed by primary key
      with an autoincrement counter; [token_save], [token_genkey],
      [token_get]; the key generator interface [KeyGen] (injective in the
      primary key) with the decimal instance; the invariant [table_wf] and
      the weaker [keys_unique] that lookups need.
    - [Concurrency]: concurrent requests creating tokens: the program
      points of [createResumptionToken] ([thread]), any interleaving of
      their [token.save()] and [token.genkey()] statements ([cstep], with
      the same [token_save] and [token_genkey]), executable schedules
      ([cexec]); the invariant [cinv] by rule induction.
    - [Response]: the context as a record of optional keys, [render_xml],
      [formatError].
    - [Pagination]: [createResumptionToken], [handleListQuery],
      [resumeRequest] over the token table; the store invariant
      [store_inv] (well-formed table, every token's offset a page boundary
      inside its result set, cursor one page earlier, no [until]).
    - [Validator]: [getListQuery] step by step, and [validate], the
      specification's rules read off the raw parameters.
    - [Dispatcher]: [endpoint], [identify]; [reachable], the token tables
      any sequence of requests produces while the records change freely.
    - [Harvest]: [follow], a harvesting client that resumes until a page
      comes without a token, by any way of resuming that runs
      [resumeRequest] ([resumes_by]): direct calls or [endpoint] requests
      with [verb] and [resumptionToken] ([http_resume]).
    - [SourceRefresh]: [updateSource] (lines 20-23) over the Celery task
      queue: [get_object_or_404], then [apply_async], then the page.

    The components meet through interfaces and section parameters: the
    validator is proved against any [DatestampParser] and any dict order
    [DictIter], the engine against any [KeyGen], every handler for any record store [db] and [config]
    (page size [results_limit], endpoint name).

    ** The theorems (claims C1-C32)

    - Contract of the engine: harvests terminate and deliver every match
      exactly once, in order (C1), after exactly as many resumptions as
      further pages (C30), also when driven through [endpoint] requests
      alone (C32); a token resumed re-runs its query from the next page
      (C2); created tokens' fields (C6); the page-boundary cases (C7,
      C8); resuming twice gives the same page (C9); a page holds at most
      [results_limit] stored records, each matching the query (C31).
    - Validator: [getListQuery] refines the rule list [validate] (C3); each
      rule's error (C11, C12, C14), the success case (C13), the result
      shape (C18); a [YYYY-MM-DD] date argument is read as its midnight
      (C23).
    - Server: every reachable token table satisfies [store_inv] (C4); the
      closed set of outcomes of a request (C5); the resumption token's
      priority (C10); [badVerb] (C19, C20); the echoed URL and timestamp
      (C21); [Identify] (C22); every response date parses back to the
      request time to the second (C24).
    - What the code does against the specification: an unknown set (C15)
      or resumption key (C16) raises [DoesNotExist] instead of an error
      page, and any multi-page query with [until] raises [NameError]
      (C17, line 140).
    - Source refresh: one task for a known source (C25), [Http404] and no
      task for an unknown one (C26).
    - Concurrency: under every interleaving of token creations keys stay
      unique and [get] never finds two rows (C27), the table is
      well formed whenever no request is between its two statements
      (C28), and a finished request finds its own token (C29).

    ** Integers, bounds and fuel

    Offsets, counts and the page size are [Z], as Python integers are;
    the theorems assume [0 <= results_limit] ([0 <] for harvests, where a
    zero page size would loop).  [qs_slice] raises on negative bounds; the
    invariant keeps every stored offset at least [results_limit], so no
    request raises it (C5).  [follow]'s fuel bounds the number of
    resumptions: C1 holds whenever [N <= results_limit * (fuel + 1)] for
    [N] matches, i.e. with exactly one resumption per token the chain
    issues, and C30 shows that bound is exact (with less fuel [follow]
    gives up).  Datestamps are printed with 4 and 2 digits, which holds
    every field of a valid datetime (years 1-9999), so the round trips
    need no other bound.  Schedules in [Concurrency] are finite lists of
    statements; the theorems hold for every finite interleaving.

    ** Not modelled

    The Celery task [fetch_from_source] itself and the [OaiSource] model
    ([oai/tasks.py], [oai/models.py]) are outside [src/]: [updateSource]
    is modelled up to the task it enqueues.  XML templates and HTTP are
    plumbing: a response is the template name and final context.
    [make_aware]/[make_naive] with [UTC] are the identity on the naive UTC
    datetimes the model uses.  Requests are sequential steps
    ([reachable]) except token creation, whose two statements are
    interleaved in [Concurrency]; one request reads one snapshot of the
    records.  The parser [tolerant_datestamp_to_datetime] is pyoai's: the
    validator is proved for any parser, and the round trips for the
    specification's instance.

    ** Further work

    Harvests with [until] cannot be completed by the code (C17); a model
    of the corrected line 140 would let C1 and C32 drop that hypothesis. *)

From stdpp Require Import base strings list gmap.
From Stdlib Require Import ZArith Lia.

Declare Scope proaixy_scope.
Delimit Scope proaixy_scope with py.
Open Scope proaixy_scope.

Create HintDb proaixy.
Create Rewrite HintDb proaixy_rw.

(** ** Strings *)

(** Python's [+] on [str]. *)
Notation "s1 +++ s2" := (String.append s1 s2)
  (at level 60, right associativity) : proaixy_scope.

(** [String.append] computes on its first argument; stdpp makes [simpl]
    leave it alone, so these are its two equations. *)
Lemma str_app_nil_l (s : string) : "" +++ s = s.
Proof. reflexivity. Qed.

Lemma str_app_cons a (s1 s2 : string) : String a s1 +++ s2 = String a (s1 +++ s2).
Proof. reflexivity. Qed.

Lemma str_app_nil_r (s : string) : s +++ "" = s.
Proof. induction s as [|a s IH]; [done|]. by rewrite str_app_cons, IH. Qed.

Lemma str_app_assoc (s1 s2 s3 : string) : (s1 +++ s2) +++ s3 = s1 +++ s2 +++ s3.
Proof. induction s1 as [|a s1 IH]; [done|]. by rewrite !str_app_cons, IH. Qed.

#[export] Hint Rewrite str_app_nil_l str_app_cons str_app_nil_r : proaixy_rw.

(** The double-quote character, which the source splices into its error
    messages ([Verb "X" is not implemented.]). *)
Definition dq : string := String (Ascii.ascii_of_nat 34) EmptyString.

(** The single-quote character. *)
Definition sq : string := String (Ascii.ascii_of_nat 39) EmptyString.

(** Python truthiness of a value that is [None] or a [str]: [None] and the
    empty string are false. *)
Definition truthy (o : option string) : bool :=
  match o with
  | Some s => negb (String.eqb s EmptyString)
  | None => false
  end.

(** The value of [x] where the code tests [if x:] on a [str] or [None]:
    [Some s] exactly when [x] is a non-empty string. *)
Definition nonempty (o : option string) : option string :=
  match o with
  | Some s => if String.eqb s EmptyString then None else Some s
  | None => None
  end.

Lemma truthy_nonempty o : truthy o = true <-> exists s, nonempty o = Some s.
Proof.
  destruct o as [s|]; simpl; [destruct (String.eqb s EmptyString)|]; naive_solver.
Qed.

Lemma nonempty_truthy o s : nonempty o = Some s -> truthy (Some s) = true.
Proof.
  destruct o as [s'|]; simpl; [|done].
  destruct (String.eqb s' EmptyString) eqn:E; [done|]. intros [=<-]. simpl. by rewrite E.
Qed.

(** ** Exceptions and the state-and-exception monad *)

(** The exceptions the view can raise and does not catch.  Django raises
    [DoesNotExist] and [MultipleObjectsReturned] from [objects.get]
    (tagged with the model name); Python raises [NameError] on an unbound
    name; Django's queryset slicing asserts non-negative bounds; [f( **x)]
    raises [TypeError] when [x] is [None]; [get_object_or_404] raises
    [Http404], which Django answers with a 404 page. *)
Inductive exn :=
| DoesNotExist (model : string)
| MultipleObjectsReturned (model : string)
| NameError (name : string)
| AssertionError (msg : string)
| TypeError (msg : string)
| Http404 (model : string).

#[export] Instance exn_eq_dec : EqDecision exn.
Proof. solve_decision. Defined.

(** What a Python call does: it returns a value or raises. *)
Inductive outcome (A : Type) :=
| Ret (a : A)
| Raise (e : exn).
Arguments Ret {A} a.
Arguments Raise {A} e.

(** A computation over a mutable store [S]: effects on the store before an
    exception stay (the database writes of Django's autocommit mode). *)
Definition PyM (S A : Type) : Type := S -> outcome A * S.

Definition py_ret {S A} (a : A) : PyM S A := fun s => (Ret a, s).

Definition py_raise {S A} (e : exn) : PyM S A := fun s => (Raise e, s).

Definition py_bind {S A B} (m : PyM S A) (f : A -> PyM S B) : PyM S B :=
  fun s =>
    match m s with
    | (Ret a, s') => f a s'
    | (Raise e, s') => (Raise e, s')
    end.

(** Lift a computation that does not touch the store. *)
Definition py_lift {S A} (o : outcome A) : PyM S A := fun s => (o, s).

(** A computation that reads the store without changing it. *)
Definition py_read {S A} (f : S -> outcome A) : PyM S A := fun s => (f s, s).

Notation "x <- m ;; k" := (py_bind m (fun x => k))
  (at level 100, m at next level, right associativity) : proaixy_scope.

(** ** Django's ORM helpers *)

(** [Model.objects.get(...)] over the rows [l] of table [model]: the unique
    row satisfying [p], [DoesNotExist] when there is none and
    [MultipleObjectsReturned] when there are several. *)
Definition objects_get {A} (model : string) (p : A -> bool) (l : list A)
    : outcome A :=
  match List.filter p l with
  | [] => Raise (DoesNotExist model)
  | [x] => Ret x
  | _ :: _ :: _ => Raise (MultipleObjectsReturned model)
  end.

(** [qs[start:stop]] on a queryset with integer bounds: Django asserts that
    both bounds are non-negative, and the slice is empty when
    [stop <= start]. *)
Definition qs_slice {A} (l : list A) (start stop : Z) : outcome (list A) :=
  if (start <? 0)%Z || (stop <? 0)%Z
  then Raise (AssertionError "Negative indexing is not supported.")
  else Ret (take (Z.to_nat (stop - start)) (drop (Z.to_nat start) l)).

(** ** Generic lemmas *)

Section Monad.
  Context {S A B : Type}.

Lemma py_bind_ret (a : A) (f : A -> PyM S B) s :
    py_bind (py_ret a) f s = f a s.
  Proof. reflexivity. Qed.

Lemma py_bind_raise e (f : A -> PyM S B) s :
    py_bind (py_raise e) f s = (Raise e, s).
  Proof. reflexivity. Qed.

  (** A computation that raises never reaches its continuation. *)
Lemma py_bind_Raise (m : PyM S A) (f : A -> PyM S B) s e s' :
    m s = (Raise e, s') -> py_bind m f s = (Raise e, s').
  Proof. intros H. unfold py_bind. by rewrite H. Qed.

Lemma py_bind_Ret (m : PyM S A) (f : A -> PyM S B) s a s' :
    m s = (Ret a, s') -> py_bind m f s = f a s'.
  Proof. intros H. unfold py_bind. by rewrite H. Qed.
End Monad.

#[export] Hint Rewrite @py_bind_ret @py_bind_raise : proaixy_rw.

Section ObjectsGet.
  Context {A : Type}.

Lemma objects_get_none model (p : A -> bool) l :
    Forall (fun x => p x = false) l -> objects_get model p l = Raise (DoesNotExist model).
  Proof.
    intros H. unfold objects_get.
    replace (List.filter p l) with (@nil A); [done|].
    induction H as [|x l Hx _ IH]; simpl; [done|]. by rewrite Hx.
  Qed.

  (** When [p] holds of exactly one row, [get] returns it. *)
Lemma objects_get_unique model (p : A -> bool) l x :
    List.filter p l = [x] -> objects_get model p l = Ret x.
  Proof. intros H. unfold objects_get. by rewrite H. Qed.

Lemma objects_get_Ret model (p : A -> bool) l x :
    objects_get model p l = Ret x -> List.filter p l = [x].
  Proof.
    unfold objects_get. destruct (List.filter p l) as [|y [|z r]]; congruence.
  Qed.
  (** [get] raises only the two exceptions of its model. *)
Lemma objects_get_Raise model (p : A -> bool) l e :
    objects_get model p l = Raise e ->
    e = DoesNotExist model \/ e = MultipleObjectsReturned model.
  Proof.
    unfold objects_get. destruct (List.filter p l) as [|y [|z r]]; intros [=<-]; auto.
  Qed.
End ObjectsGet.

Section Slices.
  Context {A : Type}.
  Implicit Types l : list A.

Lemma qs_slice_ok l start stop :
    (0 <= start)%Z -> (0 <= stop)%Z ->
    qs_slice l start stop = Ret (take (Z.to_nat (stop - start)) (drop (Z.to_nat start) l)).
  Proof.
    intros H1 H2. unfold qs_slice.
    by rewrite (proj2 (Z.ltb_ge start 0) ltac:(lia)), (proj2 (Z.ltb_ge stop 0) ltac:(lia)).
  Qed.

Lemma length_page l n k :
    length (take n (drop k l)) = min n (length l - k).
  Proof. by rewrite length_take, length_drop. Qed.

  (** Consecutive pages of size [n] cover the list: the page at [k]
      followed by everything from [k + n] is everything from [k]. *)
Lemma page_app_rest l n k :
    take n (drop k l) ++ drop (k + n) l = drop k l.
  Proof. by rewrite <- drop_drop, take_drop. Qed.
End Slices.

#[export] Hint Resolve objects_get_unique objects_get_none : proaixy.

(** ** Tables as finite maps *)

(** The rows of a table kept as a map from primary key to row, in the
    order the map lists them. *)
Definition table_rows {A} (m : gmap Z A) : list A := map snd (map_to_list m).

Section Tables.
  Context {A : Type}.

Lemma filter_map_snd (p : A -> bool) (l : list (Z * A)) :
    List.filter p (map snd l) = map snd (List.filter (fun ia => p ia.2) l).
  Proof.
    induction l as [|[i a] l IH]; simpl; [done|].
    destruct (p a); simpl; by rewrite IH.
  Qed.

Lemma NoDup_single {B} (l : list B) b :
    NoDup l -> (forall c, In c l -> c = b) -> In b l -> l = [b].
  Proof.
    intros Hnd Hall Hin. destruct l as [|c [|d l]].
    - done.
    - by rewrite (Hall c (or_introl eq_refl)).
    - rewrite (Hall c (or_introl eq_refl)), (Hall d (or_intror (or_introl eq_refl))) in Hnd.
      apply NoDup_cons in Hnd as [Hnot _]. exfalso. apply Hnot. left.
  Qed.

  (** A query that matches exactly the row [i] of the table returns it. *)
Lemma table_filter_single (m : gmap Z A) (p : A -> bool) i x :
    m !! i = Some x -> p x = true ->
    (forall j y, m !! j = Some y -> p y = true -> j = i) ->
    List.filter p (table_rows m) = [x].
  Proof.
    intros Hi Hp Huniq. unfold table_rows. rewrite filter_map_snd.
    rewrite (NoDup_single _ (i, x)); [done| | |].
    - apply NoDup_ListNoDup, List.NoDup_filter, NoDup_ListNoDup, NoDup_map_to_list.
    - intros [j y] [Hin Hpy]%filter_In. apply list_elem_of_In, elem_of_map_to_list in Hin.
      simpl in Hpy. pose proof (Huniq j y Hin Hpy) as ->. congruence.
    - apply filter_In. split; [|done]. by apply list_elem_of_In, elem_of_map_to_list.
  Qed.

Lemma table_filter_none (m : gmap Z A) (p : A -> bool) :
    (forall j y, m !! j = Some y -> p y = false) ->
    Forall (fun y => p y = false) (table_rows m).
  Proof.
    intros Hall. apply Forall_forall. intros y Hy.
    apply list_elem_of_In, in_map_iff in Hy as [[j y'] [<- Hin]].
    apply list_elem_of_In, elem_of_map_to_list in Hin. by apply (Hall j).
  Qed.
End Tables.
