(* ===== verification/QueryDict.v ===== *)
(** * The request parameters: Django's [QueryDict] and the Python [dict]

    [request.GET] is a [QueryDict]: the (key, value) pairs of the query
    string in order, a key possibly repeated.  The view reads it with
    [request.GET.get(k)] (the last value of [k]), [k in request.GET] and
    [request.GET.dict()] (a plain [dict], keys in first-appearance order,
    each with its last value), and [getListQuery] consumes that dict with
    [dict.pop].  A Python [dict] is an association list with distinct keys
    in insertion order: assignment to an existing key keeps its place. *)

From stdpp Require Import base strings list.
From S2P Require Import Prelude.

Module QueryDict.

(** The query string's pairs, in order. *)
Abbreviation querydict := (list (string * string)) (only parsing).

(** A Python [dict] from [str] to [str]. *)
Abbreviation pydict := (list (string * string)) (only parsing).

(** [request.GET.get(k)]: the last value given for [k], or [None]. *)
Definition qd_get (k : string) (q : querydict) : option string :=
  fold_left (fun acc kv => if String.eqb k kv.1 then Some kv.2 else acc) q None.

(** [k in request.GET]. *)
Definition qd_contains (k : string) (q : querydict) : bool :=
  existsb (fun kv => String.eqb k kv.1) q.

(** [d[k] = v]: replace the value in place, or append the new key. *)
Fixpoint dict_setitem (k v : string) (d : pydict) : pydict :=
  match d with
  | [] => [(k, v)]
  | (k', v') :: d' =>
      if String.eqb k k' then (k', v) :: d' else (k', v') :: dict_setitem k v d'
  end.

(** [request.GET.dict()], i.e. [{key: self[key] for key in self}]. *)
Definition qd_dict (q : querydict) : pydict :=
  fold_left (fun d kv => dict_setitem kv.1 kv.2 d) q [].

(** [d.get(k)]. *)
Fixpoint dict_lookup (k : string) (d : pydict) : option string :=
  match d with
  | [] => None
  | (k', v) :: d' => if String.eqb k k' then Some v else dict_lookup k d'
  end.

(** [del d[k]] when present, nothing otherwise. *)
Definition dict_remove (k : string) (d : pydict) : pydict :=
  List.filter (fun kv => negb (String.eqb k kv.1)) d.

(** [d.pop(k, None)]: the value (or [None]) and the dict without [k]. *)
Definition dict_pop (k : string) (d : pydict) : option string * pydict :=
  (dict_lookup k d, dict_remove k d).

(** [to_kv_pairs(request.GET)] (in [oai/utils.py], outside [src/]): the
    parameters echoed in the response, every pair in order. *)
Definition to_kv_pairs (q : querydict) : list (string * string) := q.

(** ** Lemmas *)

Lemma eqb_sym_str (a b : string) : String.eqb a b = String.eqb b a.
Proof. destruct (String.eqb_spec a b), (String.eqb_spec b a); congruence. Qed.

Lemma dict_lookup_setitem k v d j :
  dict_lookup j (dict_setitem k v d) =
  if String.eqb j k then Some v else dict_lookup j d.
Proof.
  induction d as [|[k' v'] d IH]; simpl.
  - done.
  - destruct (String.eqb_spec k k') as [->|Hne]; simpl.
    + by destruct (String.eqb j k').
    + rewrite IH. destruct (String.eqb_spec j k), (String.eqb_spec j k'); congruence.
Qed.

Lemma dict_keys_setitem k v d :
  map fst (dict_setitem k v d) =
  if existsb (fun kv => String.eqb k kv.1) d then map fst d else map fst d ++ [k].
Proof.
  induction d as [|[k' v'] d IH]; simpl; [done|].
  destruct (String.eqb_spec k k') as [->|Hne]; simpl; [done|].
  rewrite IH. by destruct (existsb _ d).
Qed.

Lemma existsb_keys k (d : pydict) :
  existsb (fun kv => String.eqb k kv.1) d = true <-> In k (map fst d).
Proof.
  rewrite existsb_exists, in_map_iff. split.
  - intros [[k' v] [Hin Heq]]. apply String.eqb_eq in Heq. simpl in Heq. subst.
    by exists (k', v).
  - intros (kv & <- & Hin). exists kv. split; [done|]. apply String.eqb_refl.
Qed.

Lemma dict_setitem_nodup k v (d : pydict) :
  NoDup (map fst d) -> NoDup (map fst (dict_setitem k v d)).
Proof.
  intros Hnd. rewrite dict_keys_setitem.
  destruct (existsb _ d) eqn:E; [done|].
  apply NoDup_app. split; [done|]. split; [|apply NoDup_singleton].
  intros x Hx ->%list_elem_of_singleton. apply list_elem_of_In, existsb_keys in Hx.
  congruence.
Qed.

Lemma qd_dict_fold_nodup (q : querydict) d :
  NoDup (map fst d) ->
  NoDup (map fst (fold_left (fun d kv => dict_setitem kv.1 kv.2 d) q d)).
Proof.
  revert d. induction q as [|kv q IH]; intros d Hnd; simpl; [done|].
  apply IH, dict_setitem_nodup, Hnd.
Qed.

Lemma qd_get_fold k (q : querydict) acc :
  fold_left (fun acc kv => if String.eqb k kv.1 then Some kv.2 else acc) q acc =
  match qd_get k q with Some v => Some v | None => acc end.
Proof.
  unfold qd_get. revert acc.
  induction q as [|kv q IH]; intros acc; simpl; [done|].
  rewrite (IH (if String.eqb k kv.1 then Some kv.2 else acc)),
    (IH (if String.eqb k kv.1 then Some kv.2 else None)).
  destruct (fold_left _ q None); [done|]. by destruct (String.eqb k kv.1).
Qed.

Lemma dict_lookup_fold j (q : querydict) d :
  dict_lookup j (fold_left (fun d kv => dict_setitem kv.1 kv.2 d) q d) =
  match qd_get j q with Some v => Some v | None => dict_lookup j d end.
Proof.
  revert d. induction q as [|[k v] q IH]; intros d; [reflexivity|].
  cbn [fold_left fst snd]. rewrite IH, dict_lookup_setitem.
  change (qd_get j ((k, v) :: q)) with
    (fold_left (fun acc kv => if String.eqb j kv.1 then Some kv.2 else acc) q
       (if String.eqb j k then Some v else None)).
  rewrite qd_get_fold. destruct (qd_get j q); [done|]. by destruct (String.eqb j k).
Qed.

Lemma dict_lookup_remove_eq k d : dict_lookup k (dict_remove k d) = None.
Proof.
  induction d as [|[k' v] d IH]; simpl; [done|].
  destruct (String.eqb_spec k k'); simpl; [done|].
  by rewrite (proj2 (String.eqb_neq k k') ltac:(done)).
Qed.

Lemma dict_lookup_remove_ne k j d :
  j <> k -> dict_lookup j (dict_remove k d) = dict_lookup j d.
Proof.
  intros Hne. induction d as [|[k' v] d IH]; simpl; [done|].
  destruct (String.eqb_spec k k') as [->|]; simpl.
  - by rewrite (proj2 (String.eqb_neq j k') Hne).
  - by rewrite IH.
Qed.

(** [k in request.GET] exactly when [request.GET.get(k)] is not [None]. *)
Lemma qd_contains_get k (q : querydict) : qd_contains k q = true <-> is_Some (qd_get k q).
Proof.
  induction q as [|kv q IH]; [by split; [|intros []]|].
  unfold qd_contains, qd_get. simpl.
  rewrite qd_get_fold. fold (qd_contains k q). rewrite orb_true_iff, IH.
  destruct (qd_get k q); destruct (String.eqb k kv.1); naive_solver.
Qed.

(** [request.GET.dict()[k]] is [request.GET.get(k)]: the last value. *)
Lemma lookup_qd_dict k (q : querydict) : dict_lookup k (qd_dict q) = qd_get k q.
Proof. unfold qd_dict. rewrite dict_lookup_fold. by destruct (qd_get k q). Qed.

Lemma filter_and {A} (p q : A -> bool) (l : list A) :
  List.filter p (List.filter q l) = List.filter (fun x => q x && p x) l.
Proof.
  induction l as [|x l IH]; simpl; [done|].
  destruct (q x); simpl; [destruct (p x); simpl|]; by rewrite IH.
Qed.

Lemma filter_ext_eq {A} (p q : A -> bool) (l : list A) :
  (forall x, p x = q x) -> List.filter p l = List.filter q l.
Proof. intros Hpq. induction l as [|x l IH]; simpl; [done|]. by rewrite Hpq, IH. Qed.

(** Popping the keys [ks] one after the other leaves the pairs whose key
    is none of them, in their order. *)
Lemma removes_filter (ks : list string) (d : pydict) :
  fold_right dict_remove d ks =
  List.filter (fun kv => negb (existsb (fun k => String.eqb k kv.1) ks)) d.
Proof.
  induction ks as [|k ks IH]; simpl.
  - induction d as [|kv d IHd]; simpl; [done|]. by rewrite <- IHd.
  - unfold dict_remove at 1. rewrite IH, filter_and. apply filter_ext_eq.
    intros kv. by destruct (String.eqb k kv.1), (existsb _ ks).
Qed.

Lemma qd_dict_fold_keys (q : querydict) d0 k :
  In k (map fst (fold_left (fun d kv => dict_setitem kv.1 kv.2 d) q d0)) <->
  In k (map fst d0) \/ In k (map fst q).
Proof.
  revert d0. induction q as [|[k' v] q IH]; intros d0; simpl; [tauto|].
  rewrite IH, dict_keys_setitem.
  destruct (existsb _ d0) eqn:E; [|rewrite in_app_iff; simpl; tauto].
  apply existsb_keys in E. split; [tauto|]. intros [H|[->|H]]; auto.
Qed.

(** ** Iteration order

    [for key in d] (line 115) visits the keys of a dict in an order Python
    does not fix across versions: insertion order from CPython 3.7, the
    order of the hash table in the Python 2 this code is written for
    (lines 1-2).  [DictIter] is that order, with the two facts both
    have: every key is visited once, and deleting a key leaves the others
    in their order (a deleted slot keeps its place in the table). *)
Class DictIter := {
  dict_iter : pydict -> list string;
  dict_iter_perm : forall d, NoDup (map fst d) -> Permutation (dict_iter d) (map fst d);
  dict_iter_remove : forall k d,
    dict_iter (dict_remove k d) = List.filter (fun x => negb (String.eqb k x)) (dict_iter d)
}.

Section Iter.
Context `{DictIter}.

(** Deleting the keys [ks] one after the other. *)
Lemma dict_iter_removes (ks : list string) (d : pydict) :
  dict_iter (fold_right dict_remove d ks) =
  List.filter (fun x => negb (existsb (fun k => String.eqb k x) ks)) (dict_iter d).
Proof.
  induction ks as [|k ks IH]; simpl.
  - induction (dict_iter d) as [|x l IHl]; simpl; [done|]. by rewrite <- IHl.
  - rewrite dict_iter_remove, IH, filter_and. apply filter_ext_eq.
    intros x. by destruct (String.eqb k x), (existsb _ ks).
Qed.

(** The keys [request.GET.dict()] iterates over are the query's keys. *)
Lemma dict_iter_qd_dict k (q : querydict) :
  In k (dict_iter (qd_dict q)) <-> In k (map fst q).
Proof.
  assert (NoDup (map fst (qd_dict q))) as Hnd by (apply qd_dict_fold_nodup; constructor).
  transitivity (In k (map fst (qd_dict q))).
  - rewrite <- !list_elem_of_In. by rewrite (dict_iter_perm _ Hnd).
  - unfold qd_dict. rewrite qd_dict_fold_keys. simpl. tauto.
Qed.

End Iter.

(** The order of CPython 3.7 and later: insertion order. *)
#[export] Program Instance insertion_order : DictIter := {| dict_iter := map fst |}.
Next Obligation. done. Qed.
Next Obligation.
  intros k d. unfold dict_remove. induction d as [|[k' v] d IH]; simpl; [done|].
  destruct (String.eqb k k'); simpl; by rewrite IH.
Qed.

End QueryDict.

#[export] Hint Rewrite QueryDict.dict_lookup_remove_eq : proaixy_rw.
