(* ===== verification/Datestamp.v ===== *)
(** * Datestamps: Python [datetime] values, their order and their parser

    The view compares datestamps ([from_ > until], line 110), prints the
    request time with [isoformat()] (lines 33-36) and parses the [from] and
    [until] arguments with pyoai's [tolerant_datestamp_to_datetime]
    (lines 95, 104), a library function outside the repository.

    A [datetime] is the record of its seven fields; Python orders datetimes
    chronologically, which for valid values is the lexicographic order of
    the fields.  The parser is an interface, [DatestampParser]: the
    validator is proved against it, and [tolerant_parser] is an instance
    written from the specification (ISO-8601 dates [YYYY-MM-DD] and
    date-times [YYYY-MM-DDThh:mm:ssZ]). *)

From stdpp Require Import base strings list.
From Stdlib Require Import ZArith Lia.
From S2P Require Import Prelude.

Module Datestamp.

Local Open Scope Z_scope.

Record datetime := mk_datetime {
  year : Z; month : Z; day : Z;
  hour : Z; minute : Z; second : Z; microsecond : Z
}.

#[export] Instance datetime_eq_dec : EqDecision datetime.
Proof. solve_decision. Defined.

Definition dt_fields (d : datetime) : list Z :=
  [year d; month d; day d; hour d; minute d; second d; microsecond d].

(** Lexicographic strict order on equally long lists of integers. *)
Fixpoint lex_lt (l1 l2 : list Z) : bool :=
  match l1, l2 with
  | x :: r1, y :: r2 => (x <? y)%Z || ((x =? y)%Z && lex_lt r1 r2)
  | _, _ => false
  end.

(** Python's [a < b] on datetimes; [a > b] is [dt_lt b a]. *)
Definition dt_lt (a b : datetime) : bool := lex_lt (dt_fields a) (dt_fields b).

(** ** The parser interface *)

(** A datestamp parser returns [None] where the Python function raises
    [DatestampError], the only exception the view catches. *)
Class DatestampParser := {
  tolerant_datestamp_to_datetime : string -> option datetime
}.

(** ** Valid datetimes *)

Definition is_leap (y : Z) : bool :=
  ((y mod 4 =? 0) && negb (y mod 100 =? 0)) || (y mod 400 =? 0).

Definition days_in_month (y m : Z) : Z :=
  if (m =? 2)%Z then (if is_leap y then 29 else 28)
  else if (m =? 4) || (m =? 6) || (m =? 9) || (m =? 11) then 30 else 31.

(** The range checks of Python's [datetime] constructor. *)
Definition dt_valid (d : datetime) : bool :=
  (1 <=? year d) && (year d <=? 9999) &&
  (1 <=? month d) && (month d <=? 12) &&
  (1 <=? day d) && (day d <=? days_in_month (year d) (month d)) &&
  (0 <=? hour d) && (hour d <=? 23) &&
  (0 <=? minute d) && (minute d <=? 59) &&
  (0 <=? second d) && (second d <=? 59) &&
  (0 <=? microsecond d) && (microsecond d <=? 999999).

(** ** The specification's parser *)

(** [s.split(c)]. *)
Fixpoint str_split (c : Ascii.ascii) (s : string) : list string :=
  match s with
  | EmptyString => [EmptyString]
  | String a s' =>
      let rest := str_split c s' in
      if Ascii.eqb a c then EmptyString :: rest
      else match rest with
           | r :: rs => String a r :: rs
           | [] => [String a EmptyString]
           end
  end.

Fixpoint digits_val (s : string) (acc : Z) : option Z :=
  match s with
  | EmptyString => Some acc
  | String a s' =>
      let n := (Z.of_nat (Ascii.nat_of_ascii a) - 48)%Z in
      if (0 <=? n) && (n <=? 9) then digits_val s' (acc * 10 + n) else None
  end.

(** [int(s)] on a string of decimal digits. *)
Definition py_int (s : string) : option Z :=
  match s with
  | EmptyString => None
  | _ => digits_val s 0
  end.

Definition ascii_T : Ascii.ascii := Ascii.ascii_of_nat 84.
Definition ascii_Z : Ascii.ascii := Ascii.ascii_of_nat 90.
Definition ascii_dash : Ascii.ascii := Ascii.ascii_of_nat 45.
Definition ascii_colon : Ascii.ascii := Ascii.ascii_of_nat 58.

(** [t[-1] == 'Z'] and [t[:-1]]. *)
Fixpoint strip_Z (s : string) : option string :=
  match s with
  | EmptyString => None
  | String a EmptyString => if Ascii.eqb a ascii_Z then Some EmptyString else None
  | String a s' => (fun r => String a r) <$> strip_Z s'
  end.

Definition midnight : string := "00:00:00".

Definition parse_fields (d t : string) : option datetime :=
  match str_split ascii_dash d, str_split ascii_colon t with
  | [ys; ms; ds], [hs; mins; ss] =>
      y ← py_int ys; m ← py_int ms; dd ← py_int ds;
      h ← py_int hs; mi ← py_int mins; s ← py_int ss;
      let r := mk_datetime y m dd h mi s 0 in
      if dt_valid r then Some r else None
  | _, _ => None
  end.

Definition tolerant_parse (s : string) : option datetime :=
  match str_split ascii_T s with
  | [d; t] => t' ← strip_Z t; parse_fields d t'
  | [d] => parse_fields d midnight
  | _ => None
  end.

#[export] Instance tolerant_parser : DatestampParser := {|
  tolerant_datestamp_to_datetime := tolerant_parse
|}.

(** ** Printing *)

Definition digit_char (n : Z) : Ascii.ascii := Ascii.ascii_of_nat (48 + Z.to_nat n).

(** [%0<width>d] for [0 <= n < 10 ^ width]. *)
Fixpoint pad_digits (width : nat) (n : Z) : string :=
  match width with
  | O => EmptyString
  | S w => pad_digits w (n / 10) +++ String (digit_char (n mod 10)) EmptyString
  end.

(** [d.isoformat()]: [YYYY-MM-DDTHH:MM:SS], then [.ffffff] when the
    microseconds are not zero. *)
Definition isoformat (d : datetime) : string :=
  pad_digits 4 (year d) +++ "-" +++ pad_digits 2 (month d) +++ "-" +++ pad_digits 2 (day d) +++
  "T" +++ pad_digits 2 (hour d) +++ ":" +++ pad_digits 2 (minute d) +++ ":" +++
  pad_digits 2 (second d) +++
  (if microsecond d =? 0 then EmptyString else "." +++ pad_digits 6 (microsecond d)).

(** [d.replace(microsecond=0)]. *)
Definition drop_microseconds (d : datetime) : datetime :=
  mk_datetime (year d) (month d) (day d) (hour d) (minute d) (second d) 0.

(** ** Order lemmas *)

Lemma lex_lt_irrefl l : lex_lt l l = false.
Proof.
  induction l as [|x l IH]; simpl; [done|].
  by rewrite Z.ltb_irrefl, Z.eqb_refl, IH.
Qed.

Lemma lex_lt_trans l1 l2 l3 :
  lex_lt l1 l2 = true -> lex_lt l2 l3 = true -> lex_lt l1 l3 = true.
Proof.
  revert l2 l3. induction l1 as [|x l1 IH]; intros [|y l2] [|z l3]; simpl; try done.
  rewrite !orb_true_iff, !andb_true_iff, !Z.ltb_lt, !Z.eqb_eq.
  intros [?|[-> ?]] [?|[-> ?]]; eauto with lia.
Qed.

(** On lists of equal length the order is total. *)
Lemma lex_lt_total l1 l2 :
  length l1 = length l2 ->
  lex_lt l1 l2 = false -> lex_lt l2 l1 = false -> l1 = l2.
Proof.
  revert l2. induction l1 as [|x l1 IH]; intros [|y l2] Hlen; simpl; try done.
  rewrite !orb_false_iff, !andb_false_iff, !Z.ltb_ge, !Z.eqb_neq.
  intros [? H1] [? H2]. assert (x = y) as -> by lia.
  destruct H1 as [|H1]; [done|]. destruct H2 as [|H2]; [done|].
  f_equal. apply IH; auto.
Qed.

Lemma dt_lt_irrefl d : dt_lt d d = false.
Proof. apply lex_lt_irrefl. Qed.

Lemma dt_lt_trans a b c : dt_lt a b = true -> dt_lt b c = true -> dt_lt a c = true.
Proof. apply lex_lt_trans. Qed.

Lemma dt_fields_inj a b : dt_fields a = dt_fields b -> a = b.
Proof. destruct a, b. simpl. by intros; simplify_eq. Qed.

Lemma dt_lt_total a b : dt_lt a b = false -> dt_lt b a = false -> a = b.
Proof. intros H1 H2. apply dt_fields_inj, lex_lt_total; auto. Qed.

Lemma dt_lt_asym a b : dt_lt a b = true -> dt_lt b a = false.
Proof.
  intros H. destruct (dt_lt b a) eqn:E; [|done].
  pose proof (dt_lt_trans _ _ _ H E). by rewrite dt_lt_irrefl in *.
Qed.

(** Python's [a <= b], i.e. [not (b < a)], is transitive. *)
Lemma dt_nlt_trans a b c : dt_lt b a = false -> dt_lt c b = false -> dt_lt c a = false.
Proof.
  intros Hab Hbc. destruct (dt_lt c a) eqn:Hca; [|done].
  destruct (dt_lt a b) eqn:Hab'.
  - pose proof (dt_lt_trans _ _ _ Hca Hab'). congruence.
  - rewrite (dt_lt_total _ _ Hab' Hab) in Hca. congruence.
Qed.

End Datestamp.

#[export] Hint Resolve Datestamp.dt_lt_irrefl Datestamp.dt_lt_trans Datestamp.dt_lt_asym : proaixy.
