(* ===== verification/DatestampFormat.v ===== *)
(** * The datestamp format: [isoformat] and the parser agree

    The view prints its response date with [isoformat()] followed by [Z]
    (lines 33-36), and a harvester sends such dates back as [from] and
    [until], which [getListQuery] parses (lines 95, 104).  This file
    proves that the parser instance [tolerant_parse] reads back what
    [isoformat] prints: for a valid second-precision datetime the
    date-time form gives the datetime, and the date form [YYYY-MM-DD]
    gives its midnight.  The lemmas are about the string operations the
    two sides use: [str_split] over separators absent from digit strings,
    [pad_digits] and [digits_val], [strip_Z]. *)

From stdpp Require Import base strings list.
From Stdlib Require Import ZArith Lia.
From S2P Require Import Prelude Datestamp.

Module DatestampFormat.
Import Datestamp.

Local Open Scope Z_scope.

(** A digit character is only ever computed through its lemmas. *)
Local Arguments digit_char : simpl never.

(** [c] does not occur in [s]. *)
Fixpoint no_char (c : Ascii.ascii) (s : string) : bool :=
  match s with
  | EmptyString => true
  | String a s' => negb (Ascii.eqb a c) && no_char c s'
  end.

(** The date part [YYYY-MM-DD] that [isoformat] starts with. *)
Definition date_part (d : datetime) : string :=
  pad_digits 4 (year d) +++ "-" +++ pad_digits 2 (month d) +++ "-" +++ pad_digits 2 (day d).

(** The time part [HH:MM:SS] that follows the [T]. *)
Definition time_part (d : datetime) : string :=
  pad_digits 2 (hour d) +++ ":" +++ pad_digits 2 (minute d) +++ ":" +++ pad_digits 2 (second d).

(** The date of a datetime, at midnight. *)
Definition date_of (d : datetime) : datetime :=
  mk_datetime (year d) (month d) (day d) 0 0 0 0.

(** ** Splitting *)

Lemma str_split_nonempty c s : str_split c s <> [].
Proof.
  destruct s as [|a s]; simpl; [done|].
  destruct (Ascii.eqb a c); [done|]. by destruct (str_split c s).
Qed.

(** A prefix without the separator joins the first field. *)
Lemma str_split_app_nosep c a b :
  no_char c a = true ->
  str_split c (a +++ b) =
    match str_split c b with r :: rs => (a +++ r) :: rs | [] => [a] end.
Proof.
  induction a as [|x a IH]; rewrite ?str_app_nil_l, ?str_app_cons; simpl.
  { intros _. pose proof (str_split_nonempty c b). by destruct (str_split c b). }
  intros [Hx Ha]%andb_prop. apply negb_true_iff in Hx. rewrite Hx, IH by done.
  pose proof (str_split_nonempty c b). by destruct (str_split c b).
Qed.

Lemma str_split_nosep c a : no_char c a = true -> str_split c a = [a].
Proof.
  intros Ha. rewrite <- (str_app_nil_r a) at 2.
  rewrite <- (str_app_nil_r a) at 1. by rewrite str_split_app_nosep.
Qed.

(** A field without the separator, then the separator. *)
Lemma str_split_field c a b :
  no_char c a = true -> str_split c (a +++ String c b) = a :: str_split c b.
Proof.
  intros Ha. rewrite str_split_app_nosep by done. simpl.
  by rewrite Ascii.eqb_refl, str_app_nil_r.
Qed.

Lemma no_char_app c a b : no_char c (a +++ b) = no_char c a && no_char c b.
Proof. induction a as [|x a IH]; rewrite ?str_app_cons; simpl; [done|]. by rewrite IH, andb_assoc. Qed.

(** ** Digits *)

Lemma no_char_cons c a s : no_char c (String a s) = negb (Ascii.eqb a c) && no_char c s.
Proof. reflexivity. Qed.


Lemma digit_char_val n :
  0 <= n < 10 -> Z.of_nat (Ascii.nat_of_ascii (digit_char n)) - 48 = n.
Proof.
  intros Hn. unfold digit_char. rewrite Ascii.nat_ascii_embedding by lia. lia.
Qed.

(** A digit is none of the separators the format uses. *)
Lemma digit_char_ne n c :
  0 <= n < 10 -> (Ascii.nat_of_ascii c < 48 \/ 57 < Ascii.nat_of_ascii c)%nat ->
  Ascii.eqb (digit_char n) c = false.
Proof.
  intros Hn Hc. apply Ascii.eqb_neq. intros Heq.
  pose proof (digit_char_val n Hn) as Hv. rewrite Heq in Hv. lia.
Qed.

Lemma pad_digits_no_char c w n :
  (Ascii.nat_of_ascii c < 48 \/ 57 < Ascii.nat_of_ascii c)%nat ->
  no_char c (pad_digits w n) = true.
Proof.
  intros Hc. revert n. induction w as [|w IH]; intros n; simpl; [done|].
  rewrite no_char_app, IH, no_char_cons, digit_char_ne; [done| |done].
  apply Z.mod_pos_bound. lia.
Qed.

Lemma digits_val_app a b acc :
  digits_val (a +++ b) acc = digits_val a acc ≫= fun v => digits_val b v.
Proof.
  revert acc. induction a as [|x a IH]; intros acc; rewrite ?str_app_cons; simpl; [done|].
  destruct (_ && _); [apply IH|done].
Qed.

Lemma bind_Some {A B} (x : A) (f : A -> option B) : Some x ≫= f = f x.
Proof. reflexivity. Qed.

(** The value of one more digit. *)
Lemma digits_val_digit n acc :
  0 <= n < 10 -> digits_val (String (digit_char n) EmptyString) acc = Some (acc * 10 + n).
Proof.
  intros Hn.
  change (digits_val (String (digit_char n) EmptyString) acc) with
    (let k := Z.of_nat (Ascii.nat_of_ascii (digit_char n)) - 48 in
     if (0 <=? k) && (k <=? 9) then Some (acc * 10 + k) else None).
  cbv zeta. rewrite digit_char_val by done.
  rewrite (proj2 (Z.leb_le 0 n) ltac:(lia)), (proj2 (Z.leb_le n 9) ltac:(lia)). done.
Qed.

(** [int('%0<w>d' % n)] is [n]. *)
Lemma digits_val_pad w n acc :
  0 <= n < 10 ^ Z.of_nat w ->
  digits_val (pad_digits w n) acc = Some (acc * 10 ^ Z.of_nat w + n).
Proof.
  revert n acc. induction w as [|w IH]; intros n acc Hn.
  - simpl in Hn. simpl. f_equal. lia.
  - rewrite Nat2Z.inj_succ, Z.pow_succ_r in * by lia.
    change (pad_digits (S w) n) with
      (pad_digits w (n / 10) +++ String (digit_char (n mod 10)) EmptyString).
    assert (0 <= n / 10 < 10 ^ Z.of_nat w).
    { split; [apply Z.div_pos; lia|]. apply Z.div_lt_upper_bound; lia. }
    rewrite digits_val_app, IH, bind_Some, digits_val_digit by (try apply Z.mod_pos_bound; lia).
    f_equal. pose proof (Z.div_mod n 10). lia.
Qed.

Lemma py_int_pad w n :
  (0 < w)%nat -> 0 <= n < 10 ^ Z.of_nat w -> py_int (pad_digits w n) = Some n.
Proof.
  intros Hw Hn. unfold py_int.
  destruct (pad_digits w n) eqn:E.
  - destruct w as [|w]; [lia|]. simpl in E.
    destruct (pad_digits w (n / 10)); discriminate.
  - rewrite <- E, digits_val_pad by done. f_equal; lia.
Qed.

Lemma py_int_pad4 n : 0 <= n < 10000 -> py_int (pad_digits 4 n) = Some n.
Proof. intros Hn. apply py_int_pad; [lia|exact Hn]. Qed.

Lemma py_int_pad2 n : 0 <= n < 100 -> py_int (pad_digits 2 n) = Some n.
Proof. intros Hn. apply py_int_pad; [lia|exact Hn]. Qed.

(** ** The trailing [Z] *)

Lemma strip_Z_app s : strip_Z (s +++ String ascii_Z EmptyString) = Some s.
Proof.
  induction s as [|a s IH]; rewrite ?str_app_nil_l, ?str_app_cons; simpl.
  - reflexivity.
  - rewrite IH. destruct s; reflexivity.
Qed.

(** The separators [T], [-], [:] and [Z] are not digits. *)
Ltac no_char_auto :=
  autorewrite with proaixy_rw;
  repeat (rewrite no_char_app || rewrite no_char_cons);
  rewrite ?pad_digits_no_char by (vm_compute; lia); reflexivity.

(** Three fields joined by a separator none of them contains. *)
Lemma str_split3 c a b e :
  no_char c a = true -> no_char c b = true -> no_char c e = true ->
  str_split c (a +++ String c (b +++ String c e)) = [a; b; e].
Proof.
  intros Ha Hb He. rewrite !str_split_field, str_split_nosep by done. done.
Qed.

(** ** The two sides of the parser *)

Lemma tolerant_parse_datetime s a b :
  str_split ascii_T s = [a; b] -> tolerant_parse s = strip_Z b ≫= parse_fields a.
Proof. intros H. unfold tolerant_parse. by rewrite H. Qed.

Lemma tolerant_parse_date s :
  str_split ascii_T s = [s] -> tolerant_parse s = parse_fields s midnight.
Proof. intros H. unfold tolerant_parse. by rewrite H. Qed.

Lemma parse_fields_ok dp tp ys ms ds hs mis ss y m dd h mi sc :
  str_split ascii_dash dp = [ys; ms; ds] -> str_split ascii_colon tp = [hs; mis; ss] ->
  py_int ys = Some y -> py_int ms = Some m -> py_int ds = Some dd ->
  py_int hs = Some h -> py_int mis = Some mi -> py_int ss = Some sc ->
  parse_fields dp tp =
    let r := mk_datetime y m dd h mi sc 0 in if dt_valid r then Some r else None.
Proof.
  intros Hd Ht Hy Hm Hdd Hh Hmi Hs. unfold parse_fields.
  rewrite Hd, Ht, Hy, Hm, Hdd, Hh, Hmi, Hs. reflexivity.
Qed.

(** ** Valid datetimes fit their printed widths *)

Lemma days_in_month_le y m : days_in_month y m <= 31.
Proof. unfold days_in_month. repeat case_match; lia. Qed.

Lemma dt_valid_bounds d :
  dt_valid d = true ->
  0 <= year d < 10000 /\ 0 <= month d < 100 /\ 0 <= day d < 100 /\
  0 <= hour d < 100 /\ 0 <= minute d < 100 /\ 0 <= second d < 100.
Proof.
  unfold dt_valid. rewrite !andb_true_iff, !Z.leb_le.
  pose proof (days_in_month_le (year d) (month d)). lia.
Qed.

Lemma dt_valid_date_of d : dt_valid d = true -> dt_valid (date_of d) = true.
Proof.
  unfold dt_valid, date_of; simpl. rewrite !andb_true_iff, !Z.leb_le. lia.
Qed.

Lemma date_part_fields d :
  str_split ascii_dash (date_part d) =
    [pad_digits 4 (year d); pad_digits 2 (month d); pad_digits 2 (day d)].
Proof. unfold date_part. autorewrite with proaixy_rw. apply str_split3; no_char_auto. Qed.

Lemma time_part_fields d :
  str_split ascii_colon (time_part d) =
    [pad_digits 2 (hour d); pad_digits 2 (minute d); pad_digits 2 (second d)].
Proof. unfold time_part. autorewrite with proaixy_rw. apply str_split3; no_char_auto. Qed.

(** [isoformat() + 'Z'] of a second-precision datetime: its date, [T],
    its time and [Z]. *)
Lemma isoformat_Z d :
  microsecond d = 0 ->
  isoformat d +++ "Z" = date_part d +++ String ascii_T (time_part d +++ String ascii_Z "").
Proof.
  intros Hmu. unfold isoformat, date_part, time_part. rewrite Hmu, Z.eqb_refl.
  rewrite !str_app_assoc. reflexivity.
Qed.

(** ** Round trips *)

(** The parser reads back what [isoformat] prints: for a valid datetime
    [d] without microseconds, [tolerant_parse (d.isoformat() + 'Z')] is
    [d]. *)
Theorem isoformat_roundtrip d :
  dt_valid d = true -> microsecond d = 0 -> tolerant_parse (isoformat d +++ "Z") = Some d.
Proof.
  intros Hv Hmu. pose proof (dt_valid_bounds d Hv) as (? & ? & ? & ? & ? & ?).
  assert (str_split ascii_T (date_part d +++ String ascii_T (time_part d +++ String ascii_Z ""))
          = [date_part d; time_part d +++ String ascii_Z ""]) as Hsplit.
  { rewrite str_split_field, str_split_nosep; [done| |]; unfold date_part, time_part; no_char_auto. }
  rewrite (isoformat_Z d Hmu). rewrite (tolerant_parse_datetime _ _ _ Hsplit).
  rewrite strip_Z_app. rewrite bind_Some.
  rewrite (parse_fields_ok _ _ _ _ _ _ _ _ (year d) (month d) (day d) (hour d) (minute d) (second d)
    (date_part_fields d) (time_part_fields d) (py_int_pad4 (year d) ltac:(lia))
    (py_int_pad2 (month d) ltac:(lia)) (py_int_pad2 (day d) ltac:(lia))
    (py_int_pad2 (hour d) ltac:(lia)) (py_int_pad2 (minute d) ltac:(lia))
    (py_int_pad2 (second d) ltac:(lia))).
  clear Hsplit. destruct d as [y mo dd h mi sc us].
  cbn [year month day hour minute second microsecond] in Hmu |- *. subst us.
  cbv zeta. by rewrite Hv.
Qed.

(** A date in the form [YYYY-MM-DD], as the specification's examples
    send for [from] and [until], parses to its midnight. *)
Theorem date_roundtrip d : dt_valid d = true -> tolerant_parse (date_part d) = Some (date_of d).
Proof.
  intros Hv. pose proof (dt_valid_bounds d Hv) as (? & ? & ? & _).
  rewrite tolerant_parse_date by (apply str_split_nosep; unfold date_part; no_char_auto).
  rewrite (parse_fields_ok _ midnight _ _ _ "00" "00" "00" (year d) (month d) (day d) 0 0 0
    (date_part_fields d) eq_refl (py_int_pad4 (year d) ltac:(lia))
    (py_int_pad2 (month d) ltac:(lia)) (py_int_pad2 (day d) ltac:(lia)) eq_refl eq_refl eq_refl).
  cbv zeta. change (mk_datetime _ _ _ 0 0 0 0) with (date_of d). by rewrite dt_valid_date_of.
Qed.

Lemma dt_valid_drop_microseconds d : dt_valid d = true -> dt_valid (drop_microseconds d) = true.
Proof.
  unfold dt_valid, drop_microseconds; simpl. rewrite !andb_true_iff, !Z.leb_le. lia.
Qed.

Lemma date_part_nonempty d : String.eqb (date_part d) "" = false.
Proof.
  apply String.eqb_neq. unfold date_part. autorewrite with proaixy_rw.
  destruct (pad_digits 4 (year d)); rewrite ?str_app_nil_l, ?str_app_cons; discriminate.
Qed.

(** ** Witnesses *)

(** The response date of the specification's examples, 2014-06-07 08:09:05. *)
Definition example_datetime : datetime := mk_datetime 2014 6 7 8 9 5 0.

End DatestampFormat.
