(* ===== verification/RecordStore.v ===== *)
(** * The record store: the [OaiRecord] and [OaiSet] tables and the list query

    The view reads two tables it never writes: [OaiRecord] (the harvested
    records) and [OaiSet] (the set catalogue), both defined in
    [oai/models.py] outside [src/].  It queries them three ways:
    [OaiRecord.objects.filter( **parameters)] (line 124) with the query
    dictionary [getListQuery] builds, [OaiSet.objects.get(name=set)]
    (line 86), and [OaiRecord.objects.order_by('timestamp').first()]
    (line 57).

    [query_params] is that query dictionary: a [dict] whose keys
    ['format'], ['set'], ['from'], ['until'] are present exactly when the
    corresponding field is [Some] (['format'] is always present).  The
    filter semantics is the specification's: equal format, equal set when
    one is given, and [from <= timestamp <= until]. *)

From stdpp Require Import base strings list.
From Stdlib Require Import ZArith Lia.
From S2P Require Import Prelude Datestamp.

Module RecordStore.
Import Datestamp.

Record oai_record := mk_record {
  r_identifier : string;
  r_timestamp : datetime;
  r_format : string;
  r_set : option string
}.

Record oai_set := mk_set { set_name : string }.

(** The rows of the two tables, in the database's order. *)
Record db := mk_db {
  db_records : list oai_record;
  db_sets : list oai_set
}.

(** The [queryParameters] dictionary of [getListQuery]. *)
Record query_params := mk_qp {
  qp_format : string;
  qp_set : option string;
  qp_from : option datetime;
  qp_until : option datetime
}.

#[export] Instance query_params_eq_dec : EqDecision query_params.
Proof. solve_decision. Defined.

Definition opt_str_eqb (a b : option string) : bool :=
  match a, b with
  | Some x, Some y => String.eqb x y
  | None, None => true
  | _, _ => false
  end.

(** Whether a record matches the filter [**parameters]. *)
Definition record_matches (qp : query_params) (r : oai_record) : bool :=
  String.eqb (r_format r) (qp_format qp) &&
  match qp_set qp with Some s => opt_str_eqb (r_set r) (Some s) | None => true end &&
  match qp_from qp with Some f => negb (dt_lt (r_timestamp r) f) | None => true end &&
  match qp_until qp with Some u => negb (dt_lt u (r_timestamp r)) | None => true end.

(** [OaiRecord.objects.filter( **parameters)]: no [order_by], so the rows
    come in the database's order. *)
Definition objects_filter (d : db) (qp : query_params) : list oai_record :=
  List.filter (record_matches qp) (db_records d).

(** [OaiSet.objects.get(name=set)]. *)
Definition oaiset_get (d : db) (name : string) : outcome oai_set :=
  objects_get "OaiSet" (fun s => String.eqb (set_name s) name) (db_sets d).

(** [order_by('timestamp').first()]: the first of the records with the
    least timestamp, [None] when the table is empty. *)
Fixpoint first_by_timestamp (l : list oai_record) : option oai_record :=
  match l with
  | [] => None
  | r :: l' =>
      match first_by_timestamp l' with
      | Some m => if dt_lt (r_timestamp m) (r_timestamp r) then Some m else Some r
      | None => Some r
      end
  end.

Definition earliest_record (d : db) : option oai_record :=
  first_by_timestamp (db_records d).

(** A query whose set, when given, is a non-empty name. *)
Definition qp_set_ok (qp : query_params) : Prop :=
  match qp_set qp with Some st => truthy (Some st) = true | None => True end.

(** The queries the validator builds: a non-empty format, a non-empty set
    name when a set is given, and [from <= until] when both are given. *)
Definition qp_wf (qp : query_params) : Prop :=
  truthy (Some (qp_format qp)) = true /\ qp_set_ok qp /\
  match qp_from qp, qp_until qp with
  | Some f, Some u => dt_lt u f = false
  | _, _ => True
  end.

(** ** Lemmas *)

Lemma first_by_timestamp_none_aux l : first_by_timestamp l = None -> l = [].
Proof.
  destruct l as [|x l]; simpl; [done|].
  destruct (first_by_timestamp l); [destruct (dt_lt _ _)|]; done.
Qed.

Lemma first_by_timestamp_in l r : first_by_timestamp l = Some r -> In r l.
Proof.
  revert r. induction l as [|x l IH]; intros r; simpl; [done|].
  destruct (first_by_timestamp l) as [m|] eqn:E.
  - destruct (dt_lt _ _); intros [=<-]; auto.
  - intros [=<-]; auto.
Qed.

Lemma first_by_timestamp_least l r :
  first_by_timestamp l = Some r ->
  Forall (fun x => dt_lt (r_timestamp x) (r_timestamp r) = false) l.
Proof.
  revert r. induction l as [|x l IH]; intros r; simpl; [done|].
  destruct (first_by_timestamp l) as [m|] eqn:E.
  - specialize (IH m eq_refl).
    destruct (dt_lt (r_timestamp m) (r_timestamp x)) eqn:Hlt; intros [=<-];
      constructor; auto using dt_lt_asym, dt_lt_irrefl.
    eapply Forall_impl; [exact IH|]. intros y Hy. eapply dt_nlt_trans; eauto.
  - apply first_by_timestamp_none_aux in E as ->.
    intros [=<-]. constructor; [apply dt_lt_irrefl|constructor].
Qed.

Lemma first_by_timestamp_none l : first_by_timestamp l = None <-> l = [].
Proof.
  split; [apply first_by_timestamp_none_aux|by intros ->].
Qed.

(** ** A small store: three [oai_dc] records of May 2014 and one set *)

Module Example.
Definition ts (dd : Z) : datetime := mk_datetime 2014 5 dd 0 0 0 0.
Definition record (id : string) (dd : Z) : oai_record := mk_record id (ts dd) "oai_dc" None.
Definition store : db := mk_db [record "r1" 1; record "r2" 2; record "r3" 3] [mk_set "math"].
Definition query : query_params := mk_qp "oai_dc" None None None.
End Example.

End RecordStore.
