(* ===== verification/TokenStore.v ===== *)
(** * The token store: the [ResumptionToken] table

    [createResumptionToken] (lines 134-145) builds a [ResumptionToken],
    saves it (the row gets its autoincrement primary key) and then calls
    [token.genkey()], which derives the token's key from that primary key
    and saves again; [resumeRequest] (line 148) reads it back with
    [ResumptionToken.objects.get(queryType=..., key=...)].  The model
    class and [genkey] live in [oai/models.py], outside [src/]: the key
    generator is the interface [KeyGen], whose one law is that distinct
    primary keys give distinct keys, and [decimal_keygen] is an instance.

    The table is a finite map from primary key to row with the next
    autoincrement value; [table_wf] is its invariant: each row stores its
    own primary key, below the counter, and the key [genkey] gave it. *)

From stdpp Require Import base strings list gmap.
From Stdlib Require Import ZArith Lia DecimalString DecimalZ.
From S2P Require Import Prelude Datestamp RecordStore.

Module TokenStore.
Import Datestamp RecordStore.

Local Open Scope Z_scope.

Inductive query_type := ListRecords | ListIdentifiers.

#[export] Instance query_type_eq_dec : EqDecision query_type.
Proof. solve_decision. Defined.

(** The verb string the view stores in [queryType]. *)
Definition query_type_str (qt : query_type) : string :=
  match qt with
  | ListRecords => "ListRecords"
  | ListIdentifiers => "ListIdentifiers"
  end.

Record resumption_token := mk_token {
  tk_id : option Z;
  tk_queryType : query_type;
  tk_metadataPrefix : string;
  tk_offset : Z;
  tk_cursor : Z;
  tk_total_count : Z;
  tk_fro : option datetime;
  tk_until : option datetime;
  tk_set : option string;
  tk_key : option string
}.

Record token_table := mk_table {
  tt_rows : gmap Z resumption_token;
  tt_next_id : Z
}.

Definition empty_table : token_table := mk_table ∅ 1.

(** [ResumptionToken.genkey]'s key derivation. *)
Class KeyGen := {
  genkey_of : Z -> string;
  genkey_of_inj : forall a b, genkey_of a = genkey_of b -> a = b
}.

Section Ops.
Context `{KeyGen}.

Definition set_id (t : resumption_token) (id : Z) : resumption_token :=
  mk_token (Some id) (tk_queryType t) (tk_metadataPrefix t) (tk_offset t)
    (tk_cursor t) (tk_total_count t) (tk_fro t) (tk_until t) (tk_set t) (tk_key t).

Definition set_key (t : resumption_token) (k : string) : resumption_token :=
  mk_token (tk_id t) (tk_queryType t) (tk_metadataPrefix t) (tk_offset t)
    (tk_cursor t) (tk_total_count t) (tk_fro t) (tk_until t) (tk_set t) (Some k).

(** [token.save()]: an INSERT with the next primary key for a new row, an
    UPDATE of its row otherwise. *)
Definition token_save (t : resumption_token) : PyM token_table resumption_token :=
  fun s =>
    match tk_id t with
    | None =>
        let id := tt_next_id s in
        let t' := set_id t id in
        (Ret t', mk_table (<[id := t']> (tt_rows s)) (id + 1))
    | Some id => (Ret t, mk_table (<[id := t]> (tt_rows s)) (tt_next_id s))
    end.

(** [token.genkey()]: set the key from the primary key and save.  It is
    only called on a saved token. *)
Definition token_genkey (t : resumption_token) : PyM token_table resumption_token :=
  match tk_id t with
  | Some id => token_save (set_key t (genkey_of id))
  | None => py_ret t
  end.

(** [ResumptionToken.objects.get(queryType=queryType, key=key)]. *)
Definition token_matches (qt : query_type) (key : string) (t : resumption_token) : bool :=
  bool_decide (tk_queryType t = qt) && opt_str_eqb (tk_key t) (Some key).

Definition token_get (qt : query_type) (key : string) (s : token_table)
    : outcome resumption_token :=
  objects_get "ResumptionToken" (token_matches qt key) (table_rows (tt_rows s)).

(** ** The table invariant *)

Definition row_wf (s : token_table) (id : Z) (t : resumption_token) : Prop :=
  tk_id t = Some id /\ id < tt_next_id s /\ tk_key t = Some (genkey_of id).

Definition table_wf (s : token_table) : Prop :=
  forall id t, tt_rows s !! id = Some t -> row_wf s id t.

Lemma empty_table_wf : table_wf empty_table.
Proof. intros id t. simpl. by rewrite lookup_empty. Qed.

Lemma table_wf_fresh s : table_wf s -> tt_rows s !! tt_next_id s = None.
Proof.
  intros Hwf. destruct (tt_rows s !! tt_next_id s) as [t|] eqn:E; [|done].
  destruct (Hwf _ _ E) as (_ & Hlt & _). lia.
Qed.

Lemma opt_str_eqb_some k k' : opt_str_eqb (Some k) (Some k') = true <-> k = k'.
Proof. apply String.eqb_eq. Qed.

(** No two rows share a key. *)
Definition keys_unique (s : token_table) : Prop :=
  forall id t j y k, tt_rows s !! id = Some t -> tt_rows s !! j = Some y ->
  tk_key t = Some k -> tk_key y = Some k -> j = id.

(** In a well-formed table a key names at most one row. *)
Lemma table_wf_keys_unique s : table_wf s -> keys_unique s.
Proof.
  intros Hwf id t j y k Ht Hy Hkt Hky.
  destruct (Hwf _ _ Ht) as (_ & _ & Kt), (Hwf _ _ Hy) as (_ & _ & Ky).
  apply genkey_of_inj. congruence.
Qed.

Lemma table_wf_key_unique s id t j y k :
  table_wf s -> tt_rows s !! id = Some t -> tt_rows s !! j = Some y ->
  tk_key t = Some k -> tk_key y = Some k -> j = id.
Proof. intros Hwf. by apply table_wf_keys_unique. Qed.

(** Where keys are unique, a row is found by its query type and its key. *)
Lemma token_get_found_unique s id t k :
  keys_unique s -> tt_rows s !! id = Some t -> tk_key t = Some k ->
  token_get (tk_queryType t) k s = Ret t.
Proof.
  intros Huniq Ht Kt. unfold token_get. apply objects_get_unique.
  apply (table_filter_single _ _ id); [done| |].
  - unfold token_matches. rewrite Kt, bool_decide_eq_true_2; [|done].
    by apply opt_str_eqb_some.
  - intros j y Hy [_ Hk]%andb_prop.
    destruct (tk_key y) as [k'|] eqn:Ky; [|done].
    apply opt_str_eqb_some in Hk as ->.
    eapply Huniq; eauto.
Qed.

(** The row [id] is found by its query type and its key. *)
Lemma token_get_found s id t :
  table_wf s -> tt_rows s !! id = Some t ->
  token_get (tk_queryType t) (genkey_of id) s = Ret t.
Proof.
  intros Hwf Ht. destruct (Hwf _ _ Ht) as (_ & _ & Kt).
  apply (token_get_found_unique _ id); [by apply table_wf_keys_unique|done|done].
Qed.

(** A key that no row of that query type has is not found. *)
Lemma token_get_missing s qt key :
  (forall j y, tt_rows s !! j = Some y -> token_matches qt key y = false) ->
  token_get qt key s = Raise (DoesNotExist "ResumptionToken").
Proof. intros Hall. by apply objects_get_none, table_filter_none. Qed.

(** A token [get] returns is a row of the table that matches the query. *)
Lemma token_get_in s qt key t :
  token_get qt key s = Ret t ->
  exists id, tt_rows s !! id = Some t /\ token_matches qt key t = true.
Proof.
  unfold token_get. intros Hget%objects_get_Ret.
  assert (In t (List.filter (token_matches qt key) (table_rows (tt_rows s)))) as Hin
    by (rewrite Hget; left; done).
  apply filter_In in Hin as [Hin Hm]. unfold table_rows in Hin.
  apply in_map_iff in Hin as [[id t'] [<- Hin]].
  exists id. split; [|done]. by apply list_elem_of_In, elem_of_map_to_list in Hin.
Qed.

(** Where keys are unique the lookup never finds two rows. *)
Lemma token_get_not_multiple_unique s qt key model :
  keys_unique s -> token_get qt key s <> Raise (MultipleObjectsReturned model).
Proof.
  intros Huniq. unfold token_get, objects_get.
  destruct (List.filter (token_matches qt key) (table_rows (tt_rows s))) as [|y [|z r]] eqn:E;
    try discriminate.
  assert (In y (List.filter (token_matches qt key) (table_rows (tt_rows s)))) as Hin
    by (rewrite E; left; done).
  apply filter_In in Hin as [Hin Hm]. unfold table_rows in Hin.
  apply in_map_iff in Hin as [[id y'] [Hy Hin]]. simpl in Hy. subst y'.
  apply list_elem_of_In, elem_of_map_to_list in Hin.
  rewrite (table_filter_single _ _ id y Hin Hm) in E; [discriminate|].
  intros j x Hx [_ Hk]%andb_prop. apply andb_prop in Hm as [_ Hky].
  destruct (tk_key y) as [ky|] eqn:Ky, (tk_key x) as [kx|] eqn:Kx; try done.
  apply opt_str_eqb_some in Hk, Hky. subst.
  eapply Huniq; eauto.
Qed.

(** In a well-formed table the lookup never finds two rows. *)
Lemma token_get_not_multiple s qt key model :
  table_wf s -> token_get qt key s <> Raise (MultipleObjectsReturned model).
Proof. intros Hwf. by apply token_get_not_multiple_unique, table_wf_keys_unique. Qed.

(** Saving a new token and giving it its key keeps the table well formed,
    adds exactly that row, under the next primary key. *)
Lemma save_genkey_spec s t :
  table_wf s -> tk_id t = None ->
  let id := tt_next_id s in
  let t' := set_key (set_id t id) (genkey_of id) in
  py_bind (token_save t) token_genkey s =
    (Ret t', mk_table (<[id := t']> (tt_rows s)) (id + 1)).
Proof.
  intros Hwf Hnone id t'. unfold py_bind, token_save at 1. rewrite Hnone. simpl.
  unfold token_genkey, token_save. simpl. by rewrite insert_insert_eq.
Qed.

Lemma save_genkey_wf s t :
  table_wf s -> tk_id t = None ->
  table_wf (mk_table (<[tt_next_id s := set_key (set_id t (tt_next_id s)) (genkey_of (tt_next_id s))]>
              (tt_rows s)) (tt_next_id s + 1)).
Proof.
  intros Hwf Hnone id r. simpl. rewrite lookup_insert.
  case_decide as Heq.
  - intros [=<-]. subst id. repeat split; simpl; lia.
  - intros Hr. destruct (Hwf _ _ Hr) as (? & ? & ?). repeat split; auto. simpl. lia.
Qed.

End Ops.

(** ** A key generator: the decimal digits of the primary key *)

Definition decimal_key (id : Z) : string :=
  DecimalString.NilEmpty.string_of_int (Z.to_int id).

Lemma decimal_key_inj a b : decimal_key a = decimal_key b -> a = b.
Proof.
  unfold decimal_key. intros Heq.
  apply (f_equal DecimalString.NilEmpty.int_of_string) in Heq.
  rewrite !DecimalString.NilEmpty.isi in Heq. injection Heq as Heq.
  by apply DecimalZ.to_int_inj.
Qed.

#[export] Instance decimal_keygen : KeyGen := {|
  genkey_of := decimal_key;
  genkey_of_inj := decimal_key_inj
|}.

End TokenStore.
