(* ===== verification/Concurrency.v ===== *)
(** * Concurrent token creation

    Django serves requests in several threads, and the token table is the
    one resource they write (specification, section 5).  A request that
    creates a token runs [createResumptionToken] (lines 134-145): it
    builds the token, [token.save()] inserts the row (the database hands
    out the primary key atomically), then [token.genkey()] writes the key
    in a second statement.  Between the two statements of one request the
    other requests run theirs: the table holds rows whose key is still
    [NULL].

    The state is the token table with the list of requests creating a
    token, each at one of the three points of that code: built, saved,
    keyed.  [cstep] lets any one request do its next statement, with the
    same [token_save] and [token_genkey] as the sequential model, or a new
    request start.  The theorems hold for every interleaving: every row
    has its own primary key and either no key yet or the key [genkey]
    derives from it, a keyless row belongs to a request between its two
    statements, no two rows ever share a key (so [objects.get] never
    raises [MultipleObjectsReturned]), and once no request is between its
    statements the table satisfies the sequential invariant [table_wf]. *)

From stdpp Require Import base strings list gmap relations.
From Stdlib Require Import ZArith Lia.
From S2P Require Import Prelude Datestamp RecordStore TokenStore.

Module Concurrency.
Import Datestamp RecordStore TokenStore.

Local Open Scope Z_scope.

(** Where a request is in [createResumptionToken]. *)
Inductive thread :=
| TBuilt (t : resumption_token)   (* lines 135-142: the token, not saved *)
| TSaved (t : resumption_token)   (* line 143 done: the row exists *)
| TKeyed (t : resumption_token).  (* line 144 done: the row has its key *)

Record cstate := mk_cstate {
  cs_table : token_table;
  cs_threads : list thread
}.

Definition cinit : cstate := mk_cstate empty_table [].

Section Steps.
Context `{KeyGen}.

(** One atomic step of one request. *)
Inductive cstep : cstate -> cstate -> Prop :=
| step_start s th t :
    tk_id t = None -> tk_key t = None ->
    cstep (mk_cstate s th) (mk_cstate s (th ++ [TBuilt t]))
| step_save s th i t t' s' :
    th !! i = Some (TBuilt t) -> token_save t s = (Ret t', s') ->
    cstep (mk_cstate s th) (mk_cstate s' (<[i := TSaved t']> th))
| step_genkey s th i t t' s' :
    th !! i = Some (TSaved t) -> token_genkey t s = (Ret t', s') ->
    cstep (mk_cstate s th) (mk_cstate s' (<[i := TKeyed t']> th)).

(** The states some interleaving reaches. *)
Definition creachable (c : cstate) : Prop := rtc cstep cinit c.

(** ** Schedules

    A schedule is the sequence of statements an interleaving performs, in
    order; [cexec] runs it, and fails on a statement the request named
    cannot perform. *)
Inductive action :=
| Start (t : resumption_token)
| Save (i : nat)
| GenKey (i : nat).

Definition cexec1 (a : action) (c : cstate) : option cstate :=
  let s := cs_table c in
  let th := cs_threads c in
  match a with
  | Start t =>
      if decide (tk_id t = None /\ tk_key t = None)
      then Some (mk_cstate s (th ++ [TBuilt t])) else None
  | Save i =>
      match th !! i with
      | Some (TBuilt t) =>
          match token_save t s with
          | (Ret t', s') => Some (mk_cstate s' (<[i := TSaved t']> th))
          | _ => None
          end
      | _ => None
      end
  | GenKey i =>
      match th !! i with
      | Some (TSaved t) =>
          match token_genkey t s with
          | (Ret t', s') => Some (mk_cstate s' (<[i := TKeyed t']> th))
          | _ => None
          end
      | _ => None
      end
  end.

Fixpoint cexec (acts : list action) (c : cstate) : option cstate :=
  match acts with
  | [] => Some c
  | a :: acts' => cexec1 a c ≫= cexec acts'
  end.

(** ** The invariant *)

(** A row's key: not set yet, or the one [genkey] derives from its id. *)
Definition key_ok (id : Z) (t : resumption_token) : Prop :=
  tk_key t = None \/ tk_key t = Some (genkey_of id).

Definition row_inv (s : token_table) (id : Z) (t : resumption_token) : Prop :=
  tk_id t = Some id /\ id < tt_next_id s /\ key_ok id t.

(** The token a request holds once it has saved it. *)
Definition thread_token (th : thread) : option resumption_token :=
  match th with
  | TBuilt _ => None
  | TSaved t | TKeyed t => Some t
  end.

(** The request's copy is its row. *)
Definition saved_in (s : token_table) (t : resumption_token) : Prop :=
  exists id, tk_id t = Some id /\ id < tt_next_id s /\ tt_rows s !! id = Some t.

Definition thread_inv (s : token_table) (th : thread) : Prop :=
  match th with
  | TBuilt t => tk_id t = None /\ tk_key t = None
  | TSaved t => saved_in s t
  | TKeyed t => saved_in s t /\ exists id, tk_id t = Some id /\ tk_key t = Some (genkey_of id)
  end.

Definition cinv (c : cstate) : Prop :=
  (forall id t, tt_rows (cs_table c) !! id = Some t -> row_inv (cs_table c) id t) /\
  (forall i th, cs_threads c !! i = Some th -> thread_inv (cs_table c) th) /\
  (forall id t, tt_rows (cs_table c) !! id = Some t -> tk_key t = None ->
     exists i u, cs_threads c !! i = Some (TSaved u) /\ tk_id u = Some id) /\
  (forall i j thi thj u v, cs_threads c !! i = Some thi -> cs_threads c !! j = Some thj ->
     thread_token thi = Some u -> thread_token thj = Some v -> tk_id u = tk_id v -> i = j).

(** A request between its two statements. *)
Definition in_flight (th : thread) : bool :=
  match th with TSaved _ => true | _ => false end.

(** No request is between its two statements. *)
Definition quiescent (c : cstate) : bool :=
  forallb (fun th => negb (in_flight th)) (cs_threads c).

(** ** Lemmas *)

Lemma cexec1_sound a c c' : cexec1 a c = Some c' -> cstep c c'.
Proof.
  destruct c as [s th], a as [t|i|i]; simpl.
  - case_decide as Hd; [|done]. destruct Hd. intros [=<-]. by constructor.
  - destruct (th !! i) as [[t| |]|] eqn:Hi; try done.
    destruct (token_save t s) as [[t'|] s'] eqn:E; [|done]. intros [=<-]. by econstructor.
  - destruct (th !! i) as [[|t|]|] eqn:Hi; try done.
    destruct (token_genkey t s) as [[t'|] s'] eqn:E; [|done]. intros [=<-]. by econstructor.
Qed.

Lemma cexec_sound acts c c' : cexec acts c = Some c' -> rtc cstep c c'.
Proof.
  revert c. induction acts as [|a acts IH]; intros c; simpl; [by intros [=<-]|].
  destruct (cexec1 a c) as [c1|] eqn:E; [|done]. simpl. intros Hrun.
  apply (rtc_l _ _ c1); [by apply (cexec1_sound a)|by apply IH].
Qed.

Lemma cinv_init : cinv cinit.
Proof. split_and!; intros ?; simpl; rewrite ?lookup_empty; done. Qed.

(** A thread that holds a token has it stored under its own id. *)
Lemma thread_token_saved s th u :
  thread_inv s th -> thread_token th = Some u -> saved_in s u.
Proof.
  destruct th as [t|t|t]; simpl; intros Hinv Heq; [done| |]; injection Heq as <-;
    [done|apply Hinv].
Qed.

(** Threads that hold tokens hold them under different ids. *)
Lemma distinct_ids c i j thi thj u v id :
  cinv c -> cs_threads c !! i = Some thi -> cs_threads c !! j = Some thj ->
  thread_token thi = Some u -> thread_token thj = Some v ->
  tk_id u = Some id -> tk_id v = Some id -> i = j.
Proof. intros (_ & _ & _ & Hd) ? ? ? ? ? ?. eapply Hd; eauto. congruence. Qed.

Lemma cinv_start s th t :
  tk_id t = None -> tk_key t = None ->
  cinv (mk_cstate s th) -> cinv (mk_cstate s (th ++ [TBuilt t])).
Proof.
  intros Hid Hkey (Hrows & Hth & Hpend & Hd). split_and!; simpl in *; [done| | |].
  - intros i x [[_ Hi] | [_ <-]]%lookup_snoc_Some; [by eapply Hth|done].
  - intros id r Hr Hk. destruct (Hpend id r Hr Hk) as (i & u & Hi & Hu).
    exists i, u. split; [by apply lookup_app_l_Some|done].
  - intros i j thi thj u v [[_ Hi] | [_ <-]]%lookup_snoc_Some
      [[_ Hj] | [_ <-]]%lookup_snoc_Some; simpl; try done. eauto.
Qed.

(** Saving: the new row takes the next id, which no thread holds. *)
Lemma cinv_save s th i t t' s' :
  th !! i = Some (TBuilt t) -> token_save t s = (Ret t', s') ->
  cinv (mk_cstate s th) -> cinv (mk_cstate s' (<[i := TSaved t']> th)).
Proof.
  intros Hi Hsave Hc. pose proof Hc as (Hrows & Hth & Hpend & Hd).
  destruct (Hth i _ Hi) as [Hid Hkey]. unfold token_save in Hsave. rewrite Hid in Hsave.
  simplify_eq/=. simpl in *.
  assert (forall j th' u, th !! j = Some th' -> thread_token th' = Some u ->
            tk_id u <> Some (tt_next_id s)) as Hold.
  { intros j th' u Hj Hu Heq. destruct (thread_token_saved _ _ _ (Hth j _ Hj) Hu)
      as (id & Hid' & Hlt & _). rewrite Hid' in Heq. simplify_eq. lia. }
  split_and!; simpl.
  - intros id r [[<- <-] | [Hne Hr]]%lookup_insert_Some.
    + split_and!; simpl; [done|lia|by left].
    + destruct (Hrows _ _ Hr) as (? & ? & ?). split_and!; [done|simpl; lia|done].
  - intros j x [(<- & <- & _) | [Hne Hj]]%list_lookup_insert_Some.
    + exists (tt_next_id s). split_and!; simpl; [done|lia|by rewrite ?lookup_insert_eq].
    + pose proof (Hth j x Hj) as Hx. destruct x as [u|u|u]; simpl in *; [done| |].
      * destruct Hx as (id & Hu & Hlt & Hr). exists id. simpl.
        rewrite lookup_insert_ne; [split_and!; [done|lia|done]|].
        intros <-. by apply (Hold j (TSaved u) u).
      * destruct Hx as [(id & Hu & Hlt & Hr) Hk]. split; [|done]. exists id. simpl.
        rewrite lookup_insert_ne; [split_and!; [done|lia|done]|].
        intros <-. by apply (Hold j (TKeyed u) u).
  - intros id r [[<- <-] | [Hne Hr]]%lookup_insert_Some Hk.
    + exists i, (set_id t (tt_next_id s)). split; [|done].
      apply list_lookup_insert_eq. by eapply lookup_lt_Some.
    + destruct (Hpend id r Hr Hk) as (j & u & Hj & Hu).
      exists j, u. split; [|done]. rewrite list_lookup_insert_ne; [done|congruence].
  - intros j k thj thk u v Hj Hk Hu Hv Huv.
    apply list_lookup_insert_Some in Hj as [(<- & <- & _) | [Hne Hj]];
    apply list_lookup_insert_Some in Hk as [(<- & <- & _) | [Hne' Hk]]; try done;
      simplify_eq/=.
    + exfalso. by apply (Hold k thk v).
    + exfalso. by apply (Hold j thj u).
    + eauto.
Qed.

(** Keying: the row of the thread's id changes, which no other thread holds. *)
Lemma cinv_genkey s th i t t' s' :
  th !! i = Some (TSaved t) -> token_genkey t s = (Ret t', s') ->
  cinv (mk_cstate s th) -> cinv (mk_cstate s' (<[i := TKeyed t']> th)).
Proof.
  intros Hi Hgen Hc. pose proof Hc as (Hrows & Hth & Hpend & Hd).
  destruct (Hth i _ Hi) as (id & Hid & Hlt & Hrow).
  unfold token_genkey, token_save in Hgen. rewrite Hid in Hgen. simpl in Hgen. rewrite Hid in Hgen.
  simplify_eq/=.
  assert (forall j th' u, j <> i -> th !! j = Some th' -> thread_token th' = Some u ->
            tk_id u <> Some id) as Hother.
  { intros j th' u Hne Hj Hu Heq. apply Hne.
    eapply (distinct_ids (mk_cstate s th)); eauto; done. }
  split_and!; simpl.
  - intros j r [[<- <-] | [Hne Hr]]%lookup_insert_Some.
    + split_and!; simpl; [done|done|by right].
    + by apply Hrows.
  - intros j x [(<- & <- & _) | [Hne Hj]]%list_lookup_insert_Some.
    + split; [exists id; simpl; by rewrite lookup_insert_eq|by exists id].
    + pose proof (Hth j x Hj) as Hx. destruct x as [u|u|u]; simpl in *; [done| |].
      * destruct Hx as (id' & Hu & Hlt' & Hr). exists id'. simpl.
        rewrite lookup_insert_ne; [done|]. intros <-. by apply (Hother j (TSaved u) u).
      * destruct Hx as [(id' & Hu & Hlt' & Hr) Hk]. split; [|done]. exists id'. simpl.
        rewrite lookup_insert_ne; [done|]. intros <-. by apply (Hother j (TKeyed u) u).
  - intros j r [[<- <-] | [Hne Hr]]%lookup_insert_Some Hk; [done|].
    destruct (Hpend j r Hr Hk) as (k & u & Hk' & Hu).
    exists k, u. split; [|done].
    rewrite list_lookup_insert_ne; [done|]. intros <-. congruence.
  - intros j k thj thk u v Hj Hk Hu Hv Huv.
    apply list_lookup_insert_Some in Hj as [(<- & <- & _) | [Hne Hj]];
    apply list_lookup_insert_Some in Hk as [(<- & <- & _) | [Hne' Hk]]; try done;
      simplify_eq/=.
    + exfalso. apply (Hother k thk v); [congruence|done|done|congruence].
    + exfalso. apply (Hother j thj u); [congruence|done|done|congruence].
    + eauto.
Qed.

Lemma cstep_cinv c c' : cstep c c' -> cinv c -> cinv c'.
Proof.
  destruct 1; eauto using cinv_start, cinv_save, cinv_genkey.
Qed.

Lemma rtc_cstep_cinv c c' : rtc cstep c c' -> cinv c -> cinv c'.
Proof. induction 1; eauto using cstep_cinv. Qed.

Lemma creachable_cinv c : creachable c -> cinv c.
Proof. intros Hr. eapply rtc_cstep_cinv; [exact Hr|apply cinv_init]. Qed.

Lemma cinv_keys_unique c : cinv c -> keys_unique (cs_table c).
Proof.
  intros (Hrows & _ & _) id t j y k Ht Hy Hkt Hky.
  destruct (Hrows _ _ Ht) as (_ & _ & [Kt|Kt]), (Hrows _ _ Hy) as (_ & _ & [Ky|Ky]);
    try congruence.
  apply genkey_of_inj. congruence.
Qed.

(** ** Theorems *)

(** C27 (safety).  Under every interleaving of token creations no two
    rows of the token table share a key, so
    [ResumptionToken.objects.get(queryType=..., key=...)] never raises
    [MultipleObjectsReturned]: the specification's key-uniqueness
    requirement holds because the key is written after the row exists. *)
Theorem interleaving_keys_unique c :
  creachable c ->
  keys_unique (cs_table c) /\
  forall qt key model, token_get qt key (cs_table c) <> Raise (MultipleObjectsReturned model).
Proof.
  intros Hr. pose proof (cinv_keys_unique _ (creachable_cinv _ Hr)) as Hu.
  split; [done|]. intros qt key model. by apply token_get_not_multiple_unique.
Qed.

(** C28 (invariant).  Whenever no request is between [token.save()] and
    [token.genkey()], the table satisfies the sequential invariant
    [table_wf]: every row carries its own id and the key derived from it.
    Keyless rows exist only while their request is in flight. *)
Theorem interleaving_quiescent_wf c :
  creachable c -> quiescent c = true -> table_wf (cs_table c).
Proof.
  intros Hr Hq. destruct (creachable_cinv _ Hr) as (Hrows & _ & Hpend & _).
  intros id t Ht. destruct (Hrows _ _ Ht) as (Hid & Hlt & [Hk|Hk]); [|done].
  destruct (Hpend _ _ Ht Hk) as (i & u & Hi & _).
  unfold quiescent in Hq. rewrite forallb_forall in Hq.
  apply list_elem_of_lookup_2, list_elem_of_In, Hq in Hi. done.
Qed.

(** C29 (functional).  Under every interleaving, a request that has
    finished [createResumptionToken] can be resumed: its token is the one
    row [get] finds by its query type and key, whatever the other
    requests have done meanwhile. *)
Theorem interleaving_token_found c i t :
  creachable c -> cs_threads c !! i = Some (TKeyed t) ->
  exists id, tk_id t = Some id /\ token_get (tk_queryType t) (genkey_of id) (cs_table c) = Ret t.
Proof.
  intros Hr Hi. pose proof (creachable_cinv _ Hr) as Hc.
  destruct Hc as (_ & Hth & _). destruct (Hth _ _ Hi) as [(n & Hid & _ & Hrow) (n' & Hid' & Hk)].
  rewrite Hid in Hid'. injection Hid' as <-.
  exists n. split; [done|].
  apply (token_get_found_unique _ n); [|done|done].
  by apply cinv_keys_unique, creachable_cinv.
Qed.

End Steps.

(** ** Two requests interleaved *)

(** A token of the specification's scenario, as [createResumptionToken]
    builds it. *)
Definition example_token : resumption_token :=
  mk_token None ListRecords "oai_dc" 2 0 3 None None None None.

(** Two requests start; both save; the second keys its token while the
    first is still between its statements. *)
Definition schedule_mid : list action :=
  [Start example_token; Start example_token; Save 0; Save 1; GenKey 1].

Definition schedule_end : list action := schedule_mid ++ [GenKey 0].

Definition run_schedule (acts : list action) : cstate :=
  from_option id cinit (cexec acts cinit).

Ltac schedule_reachable acts := apply (cexec_sound acts); vm_compute; reflexivity.

Lemma interleaving_keys_unique_witness :
  creachable (run_schedule schedule_mid) /\
  keys_unique (cs_table (run_schedule schedule_mid)).
Proof.
  assert (creachable (run_schedule schedule_mid)) as Hr by schedule_reachable schedule_mid.
  split; [exact Hr|]. apply (interleaving_keys_unique _ Hr).
Defined.

Lemma interleaving_quiescent_wf_witness :
  creachable (run_schedule schedule_end) /\ quiescent (run_schedule schedule_end) = true /\
  table_wf (cs_table (run_schedule schedule_end)).
Proof.
  assert (creachable (run_schedule schedule_end)) as Hr by schedule_reachable schedule_end.
  assert (quiescent (run_schedule schedule_end) = true) as Hq by (vm_compute; reflexivity).
  split_and!; [exact Hr|exact Hq|]. apply (interleaving_quiescent_wf _ Hr Hq).
Defined.

(** In the middle of the schedule the first request's row has no key yet,
    and the second request's token is found by its key. *)
Lemma interleaving_token_found_witness :
  creachable (run_schedule schedule_mid) /\
  cs_threads (run_schedule schedule_mid) !! 1%nat =
    Some (TKeyed (set_key (set_id example_token 2) (decimal_key 2))) /\
  exists id, tk_id (set_key (set_id example_token 2) (decimal_key 2)) = Some id /\
    token_get ListRecords (genkey_of id) (cs_table (run_schedule schedule_mid)) =
      Ret (set_key (set_id example_token 2) (decimal_key 2)).
Proof.
  assert (creachable (run_schedule schedule_mid)) as Hr by schedule_reachable schedule_mid.
  assert (cs_threads (run_schedule schedule_mid) !! 1%nat =
    Some (TKeyed (set_key (set_id example_token 2) (decimal_key 2)))) as Hi
    by (vm_compute; reflexivity).
  split_and!; [exact Hr|exact Hi|]. apply (interleaving_token_found _ _ _ Hr Hi).
Defined.

End Concurrency.
