(* ===== verification/Response.v ===== *)
(** * Responses: the template context, [render] and [formatError]

    Every handler of the view fills a context dictionary and returns
    [render(request, template, context, content_type='text/xml')].  The
    context is a [dict] with a fixed set of keys, modelled as a record of
    options (a key is present when its field is [Some]); the response is
    the template name with the final context, which is all the external
    renderer receives.  [formatError] (lines 25-28) sets ['errorCode'] and
    ['errorMessage'] and renders ['oai/error.xml']. *)

From stdpp Require Import base strings list.
From S2P Require Import Prelude Datestamp RecordStore TokenStore.

Module Response.
Import Datestamp RecordStore TokenStore.

(** ['earliestDatestamp'] holds a [datetime], or the string ['1990-01-01']
    for an empty store. *)
Inductive earliest_value :=
| EDatetime (d : datetime)
| EString (s : string).

Record context := mk_ctx {
  c_thisUrl : string;
  c_timestamp : string;
  c_params : option (list (string * string));
  c_errorCode : option string;
  c_errorMessage : option string;
  c_baseURL : option string;
  c_earliestDatestamp : option earliest_value;
  c_token : option resumption_token;
  c_matches : option (list oai_record)
}.

Record response := mk_response {
  resp_template : string;
  resp_context : context;
  resp_content_type : string
}.

(** [render(request, template, context, content_type='text/xml')]. *)
Definition render_xml (template : string) (ctx : context) : response :=
  mk_response template ctx "text/xml".

(** The context with one more key set; one setter per key the view sets. *)
Definition ctx_set_params (ctx : context) (p : list (string * string)) : context :=
  mk_ctx (c_thisUrl ctx) (c_timestamp ctx) (Some p) (c_errorCode ctx) (c_errorMessage ctx)
    (c_baseURL ctx) (c_earliestDatestamp ctx) (c_token ctx) (c_matches ctx).

Definition ctx_set_error (ctx : context) (code msg : string) : context :=
  mk_ctx (c_thisUrl ctx) (c_timestamp ctx) (c_params ctx) (Some code) (Some msg)
    (c_baseURL ctx) (c_earliestDatestamp ctx) (c_token ctx) (c_matches ctx).

Definition ctx_set_baseURL (ctx : context) (u : string) : context :=
  mk_ctx (c_thisUrl ctx) (c_timestamp ctx) (c_params ctx) (c_errorCode ctx) (c_errorMessage ctx)
    (Some u) (c_earliestDatestamp ctx) (c_token ctx) (c_matches ctx).

Definition ctx_set_earliest (ctx : context) (e : earliest_value) : context :=
  mk_ctx (c_thisUrl ctx) (c_timestamp ctx) (c_params ctx) (c_errorCode ctx) (c_errorMessage ctx)
    (c_baseURL ctx) (Some e) (c_token ctx) (c_matches ctx).

Definition ctx_set_token (ctx : context) (t : resumption_token) : context :=
  mk_ctx (c_thisUrl ctx) (c_timestamp ctx) (c_params ctx) (c_errorCode ctx) (c_errorMessage ctx)
    (c_baseURL ctx) (c_earliestDatestamp ctx) (Some t) (c_matches ctx).

Definition ctx_set_matches (ctx : context) (m : list oai_record) : context :=
  mk_ctx (c_thisUrl ctx) (c_timestamp ctx) (c_params ctx) (c_errorCode ctx) (c_errorMessage ctx)
    (c_baseURL ctx) (c_earliestDatestamp ctx) (c_token ctx) (Some m).

(** The three error codes of the protocol. *)
Definition badVerb : string := "badVerb".
Definition badArgument : string := "badArgument".
Definition badResumptionToken : string := "badResumptionToken".

Definition error_template : string := "oai/error.xml".

Definition formatError (errorCode errorMessage : string) (ctx : context) : response :=
  render_xml error_template (ctx_set_error ctx errorCode errorMessage).

(** A response is an error response of code [code] with message [msg]. *)
Definition is_error (code msg : string) (r : response) : Prop :=
  resp_template r = error_template /\
  c_errorCode (resp_context r) = Some code /\
  c_errorMessage (resp_context r) = Some msg.

Lemma formatError_is_error code msg ctx : is_error code msg (formatError code msg ctx).
Proof. done. Qed.

(** A context as [endpoint] builds it, for the examples. *)
Definition example_context : context :=
  mk_ctx "http://example.org/oai" "2014-06-07T08:09:05Z" None None None None None None None.

End Response.

#[export] Hint Resolve Response.formatError_is_error : proaixy.
