(* ===== verification/Pagination.v ===== *)
(** * The pagination engine: [handleListQuery], [createResumptionToken],
      [resumeRequest]

    [handleListQuery] (lines 121-131) filters the records, counts them,
    creates a resumption token when more than [results_limit] records
    remain after [offset], and renders the page [matches[offset:offset +
    results_limit]].  [createResumptionToken] (lines 134-145) copies the
    query into a token whose [offset] is the start of the next page and
    saves it; [resumeRequest] (lines 147-159) looks a token up and runs the
    query it stores from its offset.

    The page size [results_limit] and the endpoint name come from
    [oai/settings.py]: they are the fields of [config].  The record store
    is the [db] the section is parameterised by, read-only; the token
    table is the state of the [PyM] monad. *)

From stdpp Require Import base strings list gmap.
From Stdlib Require Import ZArith Lia.
From S2P Require Import Prelude Datestamp RecordStore TokenStore Response.

(** The settings the view imports from [oai.settings]. *)
Record config := mk_config {
  results_limit : Z;
  oai_endpoint_name : string
}.

Module Pagination.
Import Datestamp RecordStore TokenStore Response.

Local Open Scope Z_scope.

Section Engine.
Context `{KeyGen} (cfg : config) (d : db).

Definition set_fro (t : resumption_token) (f : datetime) : resumption_token :=
  mk_token (tk_id t) (tk_queryType t) (tk_metadataPrefix t) (tk_offset t)
    (tk_cursor t) (tk_total_count t) (Some f) (tk_until t) (tk_set t) (tk_key t).

Definition set_set (t : resumption_token) (s : string) : resumption_token :=
  mk_token (tk_id t) (tk_queryType t) (tk_metadataPrefix t) (tk_offset t)
    (tk_cursor t) (tk_total_count t) (tk_fro t) (tk_until t) (Some s) (tk_key t).

(** Line 140 reads [queryParameter['until']]: the name [queryParameter]
    is bound nowhere, so the line raises [NameError] before the token is
    saved. *)
Definition createResumptionToken (queryType : query_type) (queryParameters : query_params)
    (offset totalCount : Z) : PyM token_table resumption_token :=
  let token := mk_token None queryType (qp_format queryParameters) offset
                 (offset - results_limit cfg) totalCount None None None None in
  let token := match qp_from queryParameters with
               | Some f => set_fro token f
               | None => token
               end in
  match qp_until queryParameters with
  | Some _ => py_raise (NameError "queryParameter")
  | None =>
      let token := match qp_set queryParameters with
                   | Some s => set_set token s
                   | None => token
                   end in
      token <- token_save token ;;
      token_genkey token
  end.

(** The test [queryType == 'ListRecords' or ...] of line 123 always holds:
    [query_type] has just these two verbs, the only ones [endpoint] passes. *)
Definition handleListQuery (context : context) (queryType : query_type)
    (parameters : query_params) (offset : Z) : PyM token_table response :=
  let matches := objects_filter d parameters in
  let count := Z.of_nat (length matches) in
  context <- (if count - offset >? results_limit cfg
              then token <- createResumptionToken queryType parameters
                              (offset + results_limit cfg) count ;;
                   py_ret (ctx_set_token context token)
              else py_ret context) ;;
  page <- py_lift (qs_slice matches offset (offset + results_limit cfg)) ;;
  py_ret (render_xml ("oai/" +++ query_type_str queryType +++ ".xml")
            (ctx_set_matches context page)).

(** The query a token stores (lines 151-158): [if token.set:] drops an
    empty set name. *)
Definition token_query (token : resumption_token) : query_params :=
  mk_qp (tk_metadataPrefix token)
    (if truthy (tk_set token) then tk_set token else None)
    (tk_fro token) (tk_until token).

(** [objects.get] raises when no token matches, so the test [if not
    token] of line 149 never holds and its [badResumptionToken] page is not
    reachable. *)
Definition resumeRequest (context : context) (queryType : query_type) (key : string)
    : PyM token_table response :=
  token <- py_read (token_get queryType key) ;;
  handleListQuery context queryType (token_query token) (tk_offset token).

(** ** What the engine computes *)

Definition list_template (qt : query_type) : string :=
  "oai/" +++ query_type_str qt +++ ".xml".

(** The page [matches[offset:offset + results_limit]]. *)
Definition page (matches : list oai_record) (offset : Z) : list oai_record :=
  take (Z.to_nat (results_limit cfg)) (drop (Z.to_nat offset) matches).

(** The token [createResumptionToken] builds for a query without [until],
    before it is saved. *)
Definition token_of (qt : query_type) (qp : query_params) (offset count : Z)
    : resumption_token :=
  mk_token None qt (qp_format qp) offset (offset - results_limit cfg) count
    (qp_from qp) None (qp_set qp) None.

(** The same token once saved under primary key [id] and given its key. *)
Definition created_token qt qp offset count (id : Z) : resumption_token :=
  set_key (set_id (token_of qt qp offset count) id) (genkey_of id).

Definition table_add (s : token_table) (t : resumption_token) : token_table :=
  mk_table (<[tt_next_id s := t]> (tt_rows s)) (tt_next_id s + 1).

Lemma create_spec qt qp o c s :
  table_wf s -> qp_until qp = None ->
  createResumptionToken qt qp o c s =
    (Ret (created_token qt qp o c (tt_next_id s)),
     table_add s (created_token qt qp o c (tt_next_id s))).
Proof.
  intros Hwf Hu. destruct qp as [f st fr u]; simpl in Hu; subst u.
  unfold createResumptionToken. simpl.
  destruct fr, st; by apply save_genkey_spec.
Qed.

Lemma create_until_raises qt qp o c s u :
  qp_until qp = Some u ->
  createResumptionToken qt qp o c s = (Raise (NameError "queryParameter"), s).
Proof. intros Hu. unfold createResumptionToken. by rewrite Hu. Qed.

Lemma slice_page matches offset :
  0 <= offset -> 0 <= results_limit cfg ->
  qs_slice matches offset (offset + results_limit cfg) = Ret (page matches offset).
Proof.
  intros Ho HL. rewrite qs_slice_ok by lia. unfold page. do 3 f_equal. lia.
Qed.

(** ** Functional behaviour of [handleListQuery] *)

Lemma handleListQuery_more ctx qt qp o s :
  0 <= o -> 0 <= results_limit cfg -> table_wf s -> qp_until qp = None ->
  results_limit cfg < Z.of_nat (length (objects_filter d qp)) - o ->
  let t := created_token qt qp (o + results_limit cfg)
             (Z.of_nat (length (objects_filter d qp))) (tt_next_id s) in
  handleListQuery ctx qt qp o s =
    (Ret (render_xml (list_template qt)
            (ctx_set_matches (ctx_set_token ctx t) (page (objects_filter d qp) o))),
     table_add s t).
Proof.
  intros Ho HL Hwf Hu Hmore t. unfold handleListQuery.
  rewrite (proj2 (Z.gtb_lt _ _)) by lia.
  unfold py_bind at 1 2. rewrite create_spec by done. cbn -[qs_slice].
  by rewrite slice_page.
Qed.

Lemma handleListQuery_last ctx qt qp o s :
  0 <= o -> 0 <= results_limit cfg ->
  Z.of_nat (length (objects_filter d qp)) - o <= results_limit cfg ->
  handleListQuery ctx qt qp o s =
    (Ret (render_xml (list_template qt) (ctx_set_matches ctx (page (objects_filter d qp) o))), s).
Proof.
  intros Ho HL Hlast. unfold handleListQuery.
  rewrite Z.gtb_ltb, (proj2 (Z.ltb_ge _ _)) by lia.
  cbn -[qs_slice]. by rewrite slice_page.
Qed.

Lemma handleListQuery_until ctx qt qp o s u :
  qp_until qp = Some u ->
  results_limit cfg < Z.of_nat (length (objects_filter d qp)) - o ->
  handleListQuery ctx qt qp o s = (Raise (NameError "queryParameter"), s).
Proof.
  intros Hu Hmore. unfold handleListQuery.
  rewrite (proj2 (Z.gtb_lt _ _)) by lia.
  unfold py_bind at 1 2. by rewrite (create_until_raises _ _ _ _ _ u).
Qed.

(** On the last page the whole rest of the result set is delivered. *)
Lemma page_last matches o :
  0 <= o -> Z.of_nat (length matches) - o <= results_limit cfg ->
  page matches o = drop (Z.to_nat o) matches.
Proof.
  intros Ho Hle. unfold page. apply take_ge. rewrite length_drop. lia.
Qed.

Lemma length_page_full matches o :
  0 <= o -> 0 <= results_limit cfg ->
  Z.of_nat (length matches) - o >= results_limit cfg ->
  length (page matches o) = Z.to_nat (results_limit cfg).
Proof.
  intros Ho HL Hge. unfold page. rewrite length_take, length_drop. lia.
Qed.

(** ** [resumeRequest] *)

Lemma resumeRequest_found ctx s id t :
  table_wf s -> tt_rows s !! id = Some t ->
  resumeRequest ctx (tk_queryType t) (genkey_of id) s =
    handleListQuery ctx (tk_queryType t) (token_query t) (tk_offset t) s.
Proof.
  intros Hwf Ht. unfold resumeRequest, py_bind, py_read.
  by rewrite (token_get_found s id t).
Qed.

Lemma resumeRequest_missing ctx qt key s :
  (forall j y, tt_rows s !! j = Some y -> token_matches qt key y = false) ->
  resumeRequest ctx qt key s = (Raise (DoesNotExist "ResumptionToken"), s).
Proof.
  intros Hall. unfold resumeRequest, py_bind, py_read. by rewrite token_get_missing.
Qed.

(** The query a created token stores is the query it was created from. *)
Lemma token_query_created qt qp o c id :
  qp_until qp = None -> qp_set_ok qp ->
  token_query (created_token qt qp o c id) = qp.
Proof.
  intros Hu Hset. destruct qp as [f st fr u]. simpl in *. subst u.
  unfold token_query. simpl. destruct st as [st|]; [by rewrite Hset|done].
Qed.

(** ** The store invariant *)

(** What every stored token satisfies: its offset is a page boundary
    strictly inside the result set it was created for, its cursor is one
    page earlier, and it has no [until] (a query with [until] never gets
    a token, see [handleListQuery_until]). *)
Definition token_inv (t : resumption_token) : Prop :=
  results_limit cfg <= tk_offset t < tk_total_count t /\
  tk_cursor t = tk_offset t - results_limit cfg /\
  tk_until t = None.

Definition store_inv (s : token_table) : Prop :=
  table_wf s /\ forall id t, tt_rows s !! id = Some t -> token_inv t.

Lemma created_token_inv qt qp o c id :
  0 <= o -> results_limit cfg < c - o ->
  token_inv (created_token qt qp (o + results_limit cfg) c id).
Proof. intros Ho Hc. unfold token_inv. simpl. split_and!; done || lia. Qed.

(** Every branch of [handleListQuery]: the last page, a page with a new
    token, or the [NameError] of line 140; the store changes only by the
    new token. *)
Lemma handleListQuery_cases ctx qt qp o s :
  0 <= o -> 0 <= results_limit cfg -> table_wf s ->
  let ms := objects_filter d qp in
  let N := Z.of_nat (length ms) in
  (N - o <= results_limit cfg /\
   handleListQuery ctx qt qp o s =
     (Ret (render_xml (list_template qt) (ctx_set_matches ctx (page ms o))), s)) \/
  (exists t, t = created_token qt qp (o + results_limit cfg) N (tt_next_id s) /\
     qp_until qp = None /\ token_inv t /\
     handleListQuery ctx qt qp o s =
       (Ret (render_xml (list_template qt) (ctx_set_matches (ctx_set_token ctx t) (page ms o))),
        table_add s t)) \/
  (qp_until qp <> None /\ handleListQuery ctx qt qp o s = (Raise (NameError "queryParameter"), s)).
Proof.
  intros Ho HL Hwf. cbv zeta.
  destruct (Z.le_gt_cases (Z.of_nat (length (objects_filter d qp)) - o) (results_limit cfg)) as [Hle|Hgt].
  - left. split; [done|]. by apply handleListQuery_last.
  - destruct (qp_until qp) as [u|] eqn:Hu.
    + right; right. split; [congruence|]. apply (handleListQuery_until _ _ _ _ _ u); [exact Hu|lia].
    + right; left. eexists. split; [done|]. split; [done|].
      split; [by apply created_token_inv|]. by apply handleListQuery_more.
Qed.

Lemma table_add_created_wf s qt qp o c :
  table_wf s -> table_wf (table_add s (created_token qt qp o c (tt_next_id s))).
Proof. intros Hwf. by apply save_genkey_wf. Qed.

Lemma table_add_old s t id y :
  table_wf s -> tt_rows s !! id = Some y -> tt_rows (table_add s t) !! id = Some y.
Proof.
  intros Hwf Hy. simpl. rewrite lookup_insert_ne; [done|].
  intros Heq. subst id. by rewrite table_wf_fresh in Hy.
Qed.

(** Case on the branch [handleListQuery] takes, with the hypotheses of
    [handleListQuery_cases] taken from the context. *)
Ltac hlq_cases ctx qt qp o s :=
  destruct (handleListQuery_cases ctx qt qp o s ltac:(assumption) ltac:(assumption)
              ltac:(assumption)) as [[Hlast Hrun]|[[tnew [Htnew [Huntil [Htinv Hrun]]]]|[Huntil Hrun]]].

(** The store invariant holds after any list query that starts at a
    non-negative offset. *)
Lemma handleListQuery_inv ctx qt qp o s :
  0 <= o -> 0 <= results_limit cfg -> store_inv s ->
  store_inv (handleListQuery ctx qt qp o s).2.
Proof.
  intros Ho HL [Hwf Htok].
  hlq_cases ctx qt qp o s; rewrite Hrun; simpl; try done.
  split; [subst tnew; by apply table_add_created_wf|].
  intros id y. simpl. rewrite lookup_insert. case_decide; [by intros [=<-]|].
  apply Htok.
Qed.

(** The rows of the table survive a list query unchanged. *)
Lemma handleListQuery_keeps ctx qt qp o s id y :
  0 <= o -> 0 <= results_limit cfg -> table_wf s -> tt_rows s !! id = Some y ->
  tt_rows (handleListQuery ctx qt qp o s).2 !! id = Some y.
Proof.
  intros Ho HL Hwf Hy. hlq_cases ctx qt qp o s; rewrite Hrun; simpl; try done.
  by apply table_add_old.
Qed.

(** A successful list query renders the page at [o] of the matches. *)
Lemma handleListQuery_matches ctx qt qp o s r s' :
  0 <= o -> 0 <= results_limit cfg -> table_wf s ->
  handleListQuery ctx qt qp o s = (Ret r, s') ->
  c_matches (resp_context r) = Some (page (objects_filter d qp) o).
Proof.
  intros Ho HL Hwf Hrun'. hlq_cases ctx qt qp o s; rewrite Hrun in Hrun'; by simplify_eq.
Qed.

Lemma handleListQuery_no_assert ctx qt qp o s msg :
  0 <= o -> 0 <= results_limit cfg -> table_wf s ->
  (handleListQuery ctx qt qp o s).1 <> Raise (AssertionError msg).
Proof. intros Ho HL Hwf. hlq_cases ctx qt qp o s; by rewrite Hrun. Qed.

(** The token [resumeRequest] finds satisfies the token invariant. *)
Lemma token_get_inv s qt key t :
  store_inv s -> token_get qt key s = Ret t -> token_inv t.
Proof.
  intros [Hwf Htok] (id & Ht & _)%token_get_in. by apply (Htok id).
Qed.

Lemma resumeRequest_inv ctx qt key s :
  0 <= results_limit cfg -> store_inv s -> store_inv (resumeRequest ctx qt key s).2.
Proof.
  intros HL Hinv. unfold resumeRequest, py_bind, py_read.
  destruct (token_get qt key s) as [t|e] eqn:E; simpl; [|done].
  pose proof (token_get_inv _ _ _ _ Hinv E) as (? & _).
  apply handleListQuery_inv; [lia|done|done].
Qed.

(** The keys of the context every response keeps from the request. *)
Definition echoes (ctx : context) (r : response) : Prop :=
  c_thisUrl (resp_context r) = c_thisUrl ctx /\
  c_timestamp (resp_context r) = c_timestamp ctx /\
  c_params (resp_context r) = c_params ctx.

(** What a list query can produce: a page of its own template, or the
    [NameError] of line 140. *)
Lemma handleListQuery_outcome ctx qt qp o s :
  0 <= o -> 0 <= results_limit cfg -> table_wf s ->
  match (handleListQuery ctx qt qp o s).1 with
  | Ret r => resp_template r = list_template qt /\ echoes ctx r
  | Raise e => e = NameError "queryParameter" /\ qp_until qp <> None
  end.
Proof. intros Ho HL Hwf. hlq_cases ctx qt qp o s; rewrite Hrun; done. Qed.

(** Resuming can only fail because the key is unknown: a stored token has
    no [until], and a well-formed table has at most one row per key. *)
Lemma resumeRequest_outcome ctx qt key s :
  0 <= results_limit cfg -> store_inv s ->
  match (resumeRequest ctx qt key s).1 with
  | Ret r => resp_template r = list_template qt /\ echoes ctx r
  | Raise e => e = DoesNotExist "ResumptionToken"
  end.
Proof.
  intros HL Hinv. unfold resumeRequest, py_bind, py_read.
  destruct (token_get qt key s) as [t|e] eqn:E.
  - pose proof (token_get_inv _ _ _ _ Hinv E) as (Hoff & _ & Hu).
    pose proof (handleListQuery_outcome ctx qt (token_query t) (tk_offset t) s
                  ltac:(lia) HL (proj1 Hinv)) as Hout.
    cbn -[handleListQuery].
    destruct (handleListQuery ctx qt (token_query t) (tk_offset t) s) as [[r|e] s'];
      simpl in *; [done|]. by destruct Hout as [_ []].
  - simpl. pose proof E as E'. unfold token_get in E'. apply objects_get_Raise in E' as [-> | ->]; [done|].
    exfalso. eapply token_get_not_multiple; [apply Hinv|exact E].
Qed.

Lemma empty_store_inv : store_inv empty_table.
Proof. split; [apply empty_table_wf|]. intros id t. simpl. by rewrite lookup_empty. Qed.

(** Resuming the key of a token just created re-runs its query from the
    token's offset. *)
Lemma resume_created ctx' qt qp o c s :
  table_wf s -> qp_until qp = None -> qp_set_ok qp ->
  let t := created_token qt qp o c (tt_next_id s) in
  resumeRequest ctx' qt (genkey_of (tt_next_id s)) (table_add s t) =
    handleListQuery ctx' qt qp o (table_add s t).
Proof.
  intros Hwf Hu Hset. cbv zeta.
  pose proof (resumeRequest_found ctx' _ (tt_next_id s) (created_token qt qp o c (tt_next_id s))
                (table_add_created_wf s qt qp o c Hwf)) as Hres.
  rewrite (token_query_created qt qp o c (tt_next_id s) Hu Hset) in Hres.
  apply Hres, lookup_insert_eq.
Qed.

(** ** Properties of the engine *)

(** C2 (round trip).  When a list query started at offset [o] hands out a
    resumption token, resuming that token's key in the resulting store
    runs the very same query from the next page, [o + results_limit]. *)
Theorem resume_roundtrip ctx ctx' qt qp o s r s' t k :
  0 <= o -> 0 <= results_limit cfg -> table_wf s -> qp_set_ok qp -> c_token ctx = None ->
  handleListQuery ctx qt qp o s = (Ret r, s') ->
  c_token (resp_context r) = Some t -> tk_key t = Some k ->
  tk_offset t = o + results_limit cfg /\
  resumeRequest ctx' qt k s' = handleListQuery ctx' qt qp (o + results_limit cfg) s'.
Proof.
  intros Ho HL Hwf Hset Hctx Hrun' Htok Hk.
  hlq_cases ctx qt qp o s; rewrite Hrun in Hrun'; simplify_eq; simpl in Htok.
  - congruence.
  - injection Htok as <-. injection Hk as <-. split; [done|].
    by apply resume_created.
Qed.

(** C6 (functional).  When more than one page remains after [o], the
    response carries a new token, saved under the next primary key with
    the key generated from it: its offset is the next page [o +
    results_limit], its cursor is [o], its total is the match count and
    lies beyond its offset; the store gains exactly that row. *)
Theorem created_token_fields ctx qt qp o s r s' t :
  0 <= o -> 0 <= results_limit cfg -> table_wf s -> c_token ctx = None ->
  handleListQuery ctx qt qp o s = (Ret r, s') -> c_token (resp_context r) = Some t ->
  let N := Z.of_nat (length (objects_filter d qp)) in
  results_limit cfg < N - o /\
  tk_offset t = o + results_limit cfg /\ tk_cursor t = o /\ tk_total_count t = N /\
  tk_offset t < tk_total_count t /\
  tk_key t = Some (genkey_of (tt_next_id s)) /\
  tt_rows s' = <[tt_next_id s := t]> (tt_rows s).
Proof.
  intros Ho HL Hwf Hctx Hrun' Htok N.
  hlq_cases ctx qt qp o s; rewrite Hrun in Hrun'; simplify_eq; simpl in Htok.
  - congruence.
  - injection Htok as <-. unfold token_inv in Htinv. simpl in *.
    split_and!; try done; lia.
Qed.

(** C7 (bounds).  When exactly one page remains ([N = o +
    results_limit]), no token is created, the store is unchanged and the
    page holds [results_limit] records: the rest of the result set. *)
Theorem boundary_exact_last_page ctx qt qp o s :
  0 <= o -> 0 <= results_limit cfg ->
  Z.of_nat (length (objects_filter d qp)) = o + results_limit cfg ->
  exists pg,
    handleListQuery ctx qt qp o s =
      (Ret (render_xml (list_template qt) (ctx_set_matches ctx pg)), s) /\
    pg = drop (Z.to_nat o) (objects_filter d qp) /\
    length pg = Z.to_nat (results_limit cfg).
Proof.
  intros Ho HL HN. exists (page (objects_filter d qp) o). split_and!.
  - apply handleListQuery_last; lia.
  - apply page_last; lia.
  - apply length_page_full; lia.
Qed.

(** C8 (bounds).  When the offset is at or past the end of the result
    set (the store shrank between pages), the page is empty, no token is
    created and the store is unchanged. *)
Theorem boundary_past_end ctx qt qp o s :
  0 <= o -> 0 <= results_limit cfg ->
  Z.of_nat (length (objects_filter d qp)) <= o ->
  handleListQuery ctx qt qp o s =
    (Ret (render_xml (list_template qt) (ctx_set_matches ctx [])), s).
Proof.
  intros Ho HL HN. rewrite handleListQuery_last by lia. do 4 f_equal.
  rewrite page_last by lia. apply drop_ge. lia.
Qed.

(** C9 (functional).  Resuming the same key twice, with no change to the
    records in between, delivers the same page both times, although the
    first resumption may have added a token to the store. *)
Theorem resume_idempotent ctx ctx' qt k s r1 s1 r2 s2 :
  0 <= results_limit cfg -> store_inv s ->
  resumeRequest ctx qt k s = (Ret r1, s1) ->
  resumeRequest ctx' qt k s1 = (Ret r2, s2) ->
  c_matches (resp_context r1) = c_matches (resp_context r2).
Proof.
  intros HL Hinv H1 H2. unfold resumeRequest, py_bind, py_read in H1, H2.
  destruct (token_get qt k s) as [t|e] eqn:E; [|discriminate].
  pose proof (token_get_inv _ _ _ _ Hinv E) as (Hoff & _).
  destruct (token_get_in _ _ _ _ E) as (id & Hid & Hm).
  pose proof Hinv as [Hwf _]. destruct (Hwf _ _ Hid) as (_ & _ & Hkey).
  apply andb_prop in Hm as [Hqt%bool_decide_eq_true_1 Hk].
  rewrite Hkey in Hk. apply opt_str_eqb_some in Hk as <-. subst qt.
  assert (s1 = (handleListQuery ctx (tk_queryType t) (token_query t) (tk_offset t) s).2)
    as Hs1 by (by rewrite H1).
  assert (store_inv s1) as [Hwf1 _]
    by (rewrite Hs1; apply handleListQuery_inv; [lia|done|done]).
  assert (tt_rows s1 !! id = Some t) as Hid1
    by (rewrite Hs1; apply handleListQuery_keeps; [lia|done|done|done]).
  rewrite (token_get_found s1 id t Hwf1 Hid1) in H2.
  assert (0 <= tk_offset t) as Ho by lia.
  rewrite (handleListQuery_matches _ _ _ _ _ _ _ Ho HL Hwf H1).
  by rewrite (handleListQuery_matches _ _ _ _ _ _ _ Ho HL Hwf1 H2).
Qed.

(** C31 (safety).  A page holds at most [results_limit] records, each a
    record of the store that matches the query: the filter
    [OaiRecord.objects.filter( **parameters)] (line 124) and the slice
    [matches[offset:offset+results_limit]] (line 130) only ever select. *)
Theorem page_records_match ctx qt qp o s r s' :
  0 <= o -> 0 <= results_limit cfg -> table_wf s ->
  handleListQuery ctx qt qp o s = (Ret r, s') ->
  exists pg, c_matches (resp_context r) = Some pg /\
    Z.of_nat (length pg) <= results_limit cfg /\
    Forall (fun x => In x (db_records d) /\ record_matches qp x = true) pg.
Proof.
  intros Ho HL Hwf Hrun. exists (page (objects_filter d qp) o).
  split_and!; [by eapply handleListQuery_matches| |].
  - unfold page. rewrite length_take. lia.
  - unfold page. apply Forall_take, Forall_drop, Forall_forall.
    intros x Hx%list_elem_of_In. by apply filter_In in Hx.
Qed.

End Engine.

(** ** Witnesses: the specification's scenario, page size 2, three records *)

Definition example_config : config := mk_config 2 "oai".

Definition example_run : outcome response * token_table :=
  handleListQuery example_config Example.store example_context ListRecords Example.query 0
    empty_table.

Definition example_token : resumption_token :=
  created_token example_config ListRecords Example.query 2 3 1.

Lemma resume_roundtrip_witness :
  tk_offset example_token = 0 + results_limit example_config /\
  resumeRequest example_config Example.store example_context ListRecords "1" example_run.2 =
  handleListQuery example_config Example.store example_context ListRecords Example.query
    (0 + results_limit example_config) example_run.2.
Proof.
  eapply (resume_roundtrip example_config Example.store example_context example_context
            ListRecords Example.query 0 empty_table);
    [lia|simpl; lia|apply empty_table_wf|exact I|reflexivity|reflexivity|reflexivity|reflexivity].
Defined.

Lemma created_token_fields_witness :
  let N := Z.of_nat (length (objects_filter Example.store Example.query)) in
  results_limit example_config < N - 0 /\
  tk_offset example_token = 0 + results_limit example_config /\ tk_cursor example_token = 0 /\
  tk_total_count example_token = N /\
  tk_offset example_token < tk_total_count example_token /\
  tk_key example_token = Some (genkey_of (tt_next_id empty_table)) /\
  tt_rows example_run.2 = <[tt_next_id empty_table := example_token]> (tt_rows empty_table).
Proof.
  eapply (created_token_fields example_config Example.store example_context ListRecords
            Example.query 0 empty_table);
    [lia|simpl; lia|apply empty_table_wf|reflexivity|reflexivity|reflexivity].
Defined.

Lemma boundary_exact_last_page_witness :
  exists pg,
    handleListQuery example_config Example.store example_context ListRecords Example.query 1
      empty_table =
      (Ret (render_xml (list_template ListRecords) (ctx_set_matches example_context pg)),
       empty_table) /\
    pg = drop (Z.to_nat 1) (objects_filter Example.store Example.query) /\
    length pg = Z.to_nat (results_limit example_config).
Proof. apply boundary_exact_last_page; [lia|simpl; lia|reflexivity]. Defined.

Lemma boundary_past_end_witness :
  handleListQuery example_config Example.store example_context ListRecords Example.query 4
    empty_table =
    (Ret (render_xml (list_template ListRecords) (ctx_set_matches example_context [])),
     empty_table).
Proof. apply boundary_past_end; [lia|simpl; lia|simpl; lia]. Defined.

Lemma resume_idempotent_witness :
  exists r1 s1 r2 s2,
    resumeRequest example_config Example.store example_context ListRecords "1" example_run.2 =
      (Ret r1, s1) /\
    resumeRequest example_config Example.store example_context ListRecords "1" s1 = (Ret r2, s2) /\
    c_matches (resp_context r1) = c_matches (resp_context r2).
Proof.
  do 4 eexists. split; [reflexivity|]. split; [reflexivity|].
  eapply (resume_idempotent example_config Example.store example_context example_context
            ListRecords "1" example_run.2);
    [simpl; lia| |reflexivity|reflexivity].
  apply handleListQuery_inv; [lia|simpl; lia|apply empty_store_inv].
Defined.

(** The first page of the example run. *)
Definition example_response : response :=
  match example_run.1 with Ret r => r | Raise _ => render_xml "" example_context end.

Lemma page_records_match_witness :
  handleListQuery example_config Example.store example_context ListRecords
    Example.query 0 empty_table = (Ret example_response, example_run.2) /\
  exists pg, c_matches (resp_context example_response) = Some pg /\
    Z.of_nat (length pg) <= results_limit example_config /\
    Forall (fun x => In x (db_records Example.store) /\ record_matches Example.query x = true) pg.
Proof.
  assert (handleListQuery example_config Example.store example_context ListRecords
    Example.query 0 empty_table = (Ret example_response, example_run.2)) as Hrun
    by (vm_compute; reflexivity).
  split; [exact Hrun|].
  apply (page_records_match example_config Example.store example_context ListRecords
           Example.query 0 empty_table example_response example_run.2);
    [lia|simpl; lia|apply empty_table_wf|exact Hrun].
Defined.

End Pagination.
