(* ===== verification/Validator.v ===== *)
(** * The argument validator: [getListQuery]

    [getListQuery] (lines 64-118) turns the request parameters of a fresh
    [ListRecords] or [ListIdentifiers] request into the query dictionary
    [queryParameters], or into an error page.  It pops [metadataPrefix]
    (required), [set] (checked against the set catalogue with
    [OaiSet.objects.get], which raises when the set does not exist),
    [from] and [until] (parsed, the only caught exception being
    [DatestampError]), checks [from <= until], drops [verb] and rejects
    a remaining key.  It returns a pair: the query or [None], and
    the error page or [None].  The key rejected is the first the dict
    visits, in the order of the [DictIter] interface.

    The parser is the [DatestampParser] interface of [Datestamp], the set
    catalogue the [db] of [RecordStore]; both are section parameters. *)

From stdpp Require Import base strings list.
From Stdlib Require Import ZArith Lia.
From S2P Require Import Prelude QueryDict Datestamp DatestampFormat RecordStore TokenStore Response.

Module Validator.
Import QueryDict Datestamp DatestampFormat RecordStore Response.

(** ** Error messages *)

Definition msg_prefix_required : string := "The metadataPrefix argument is required.".

Definition msg_set_missing (set : string) : string :=
  "The set " +++ dq +++ set +++ dq +++ " does not exist.".

(** Lines 97 and 106 close the quoted value with a single quote. *)
Definition msg_bad_date (param value : string) : string :=
  "The parameter " +++ dq +++ param +++ dq +++ " expects a valid date, not " +++
  dq +++ value +++ sq +++ ".".

Definition msg_from_after_until : string :=
  dq +++ "from" +++ dq +++ " should not be after " +++ dq +++ "until" +++ dq +++ ".".

Definition msg_illegal (key : string) : string :=
  "The argument " +++ dq +++ key +++ dq +++ " is illegal.".

Section Validate.
Context `{DatestampParser} `{DictIter} (d : db).

(** Lines 93-98 (and 102-107 for [until]): a present, non-empty value is
    parsed; a parse failure is the error message. *)
Definition parse_date_arg (name : string) (value : option string)
    : string + option datetime :=
  match nonempty value with
  | None => inr None
  | Some v =>
      match tolerant_datestamp_to_datetime v with
      | Some dt => inr (Some dt)
      | None => inl (msg_bad_date name v)
      end
  end.

(** Lines 83-89: [OaiSet.objects.get(name=set)] raises when the set does
    not exist; a model instance is always true, so the test [if not
    matchingSet] of line 87 never holds. *)
Definition check_set (set : option string) : outcome (option string) :=
  match nonempty set with
  | None => Ret None
  | Some set =>
      match oaiset_get d set with
      | Ret _ => Ret (Some set)
      | Raise e => Raise e
      end
  end.

Definition bad_argument (context : context) (msg : string)
    : option query_params * option response :=
  (None, Some (formatError badArgument msg context)).

Definition getListQuery (context : context) (GET : list (string * string))
    : outcome (option query_params * option response) :=
  let getParams := qd_dict GET in
  let '(metadataPrefix, getParams) := dict_pop "metadataPrefix" getParams in
  match nonempty metadataPrefix with
  | None => Ret (bad_argument context msg_prefix_required)
  | Some metadataPrefix =>
      let '(set, getParams) := dict_pop "set" getParams in
      match check_set set with
      | Raise e => Raise e
      | Ret set =>
          let '(from_, getParams) := dict_pop "from" getParams in
          match parse_date_arg "from" from_ with
          | inl msg => Ret (bad_argument context msg)
          | inr from_ =>
              let '(until, getParams) := dict_pop "until" getParams in
              match parse_date_arg "until" until with
              | inl msg => Ret (bad_argument context msg)
              | inr until =>
                  if match from_, until with
                     | Some f, Some u => dt_lt u f
                     | _, _ => false
                     end
                  then Ret (bad_argument context msg_from_after_until)
                  else
                    let getParams := dict_remove "verb" getParams in
                    match dict_iter getParams with
                    | key :: _ => Ret (bad_argument context (msg_illegal key))
                    | [] => Ret (Some (mk_qp metadataPrefix set from_ until), None)
                    end
              end
          end
      end
  end.

(** ** The specification of the validator

    The rules of the specification, applied in order to the raw
    parameters ([request.GET.get]): the required prefix, the set, the two
    dates, their order, and the first key, in the dict's iteration order,
    that is not one of the five the protocol allows. *)

Definition allowed_keys : list string := ["verb"; "until"; "from"; "set"; "metadataPrefix"].

Definition allowed_key (k : string) : bool := existsb (fun a => String.eqb a k) allowed_keys.

Definition illegal_keys (GET : list (string * string)) : list string :=
  List.filter (fun k => negb (allowed_key k)) (dict_iter (qd_dict GET)).

Definition validate (context : context) (GET : list (string * string))
    : outcome (option query_params * option response) :=
  match nonempty (qd_get "metadataPrefix" GET) with
  | None => Ret (bad_argument context msg_prefix_required)
  | Some mp =>
      match check_set (qd_get "set" GET) with
      | Raise e => Raise e
      | Ret set =>
          match parse_date_arg "from" (qd_get "from" GET),
                parse_date_arg "until" (qd_get "until" GET) with
          | inl msg, _ => Ret (bad_argument context msg)
          | inr _, inl msg => Ret (bad_argument context msg)
          | inr f, inr u =>
              if match f, u with Some f, Some u => dt_lt u f | _, _ => false end
              then Ret (bad_argument context msg_from_after_until)
              else match illegal_keys GET with
                   | k :: _ => Ret (bad_argument context (msg_illegal k))
                   | [] => Ret (Some (mk_qp mp set f u), None)
                   end
          end
      end
  end.

(** The keys left after the pops are the query's keys outside the five
    allowed ones, in the dict's order. *)
Lemma remaining_keys (GET : list (string * string)) :
  dict_iter (dict_remove "verb" (dict_remove "until" (dict_remove "from" (dict_remove "set"
    (dict_remove "metadataPrefix" (qd_dict GET)))))) = illegal_keys GET.
Proof.
  exact (dict_iter_removes allowed_keys (qd_dict GET)).
Qed.

(** [getListQuery] implements the specification. *)
Lemma getListQuery_validate context GET :
  getListQuery context GET = validate context GET.
Proof.
  unfold getListQuery, validate, dict_pop.
  rewrite !dict_lookup_remove_ne by discriminate. rewrite !lookup_qd_dict.
  destruct (nonempty (qd_get "metadataPrefix" GET)); [|done].
  destruct (check_set (qd_get "set" GET)); [|done].
  destruct (parse_date_arg "from" _) as [|f]; [done|].
  destruct (parse_date_arg "until" _) as [|u]; [done|].
  destruct (match f, u with Some f, Some u => dt_lt u f | _, _ => false end); [done|].
  rewrite remaining_keys. by destruct (illegal_keys GET).
Qed.

Lemma check_set_Ret set st :
  check_set set = Ret st -> match st with Some s => truthy (Some s) = true | None => True end.
Proof.
  unfold check_set. destruct (nonempty set) as [s|] eqn:E; [|by intros [=<-]].
  destruct (oaiset_get d s); intros [=<-]. by eapply nonempty_truthy.
Qed.

Lemma check_set_Raise set e :
  check_set set = Raise e -> e = DoesNotExist "OaiSet" \/ e = MultipleObjectsReturned "OaiSet".
Proof.
  unfold check_set. destruct (nonempty set) as [s|]; [|done].
  destruct (oaiset_get d s) eqn:E; intros [=<-]. by eapply objects_get_Raise.
Qed.

Lemma getListQuery_shape context GET :
  match getListQuery context GET with
  | Ret (Some qp, None) => qp_wf qp
  | Ret (None, Some r) => exists msg, r = formatError badArgument msg context
  | Ret _ => False
  | Raise e => e = DoesNotExist "OaiSet" \/ e = MultipleObjectsReturned "OaiSet"
  end.
Proof.
  rewrite getListQuery_validate. unfold validate.
  destruct (nonempty (qd_get "metadataPrefix" GET)) as [mp|] eqn:Hmp; [|by eexists].
  destruct (check_set (qd_get "set" GET)) as [st|e] eqn:Hst; [|exact (check_set_Raise _ _ Hst)].
  destruct (parse_date_arg "from" _) as [|f]; [by eexists|].
  destruct (parse_date_arg "until" _) as [|u]; [by eexists|].
  destruct (match f, u with Some f, Some u => dt_lt u f | _, _ => false end) eqn:Hord;
    [by eexists|].
  destruct (illegal_keys GET); [|by eexists].
  split_and!; [by eapply nonempty_truthy|exact (check_set_Ret _ _ Hst)|].
  by destruct f, u.
Qed.

(** ** Properties of the validator *)

(** C3 (refinement).  [getListQuery], which pops the keys one after the
    other off [request.GET.dict()], computes exactly the specification
    [validate]: its rules in order, each reading the raw parameters. *)
Theorem getListQuery_refines_validate context GET :
  getListQuery context GET = validate context GET.
Proof. apply getListQuery_validate. Qed.

(** C11 (error).  Without a non-empty [metadataPrefix] the result is the
    [badArgument] page with the fixed message, whatever else is given. *)
Theorem missing_prefix_bad_argument context GET :
  nonempty (qd_get "metadataPrefix" GET) = None ->
  getListQuery context GET =
    Ret (None, Some (formatError badArgument msg_prefix_required context)).
Proof. intros Hmp. rewrite getListQuery_validate. unfold validate. by rewrite Hmp. Qed.

(** C12 (error).  With a prefix and an accepted set, when both dates
    parse and [from] is after [until], the result is the [badArgument]
    page saying so. *)
Theorem from_after_until_bad_argument context GET mp st fs us f u :
  nonempty (qd_get "metadataPrefix" GET) = Some mp ->
  check_set (qd_get "set" GET) = Ret st ->
  nonempty (qd_get "from" GET) = Some fs -> tolerant_datestamp_to_datetime fs = Some f ->
  nonempty (qd_get "until" GET) = Some us -> tolerant_datestamp_to_datetime us = Some u ->
  dt_lt u f = true ->
  getListQuery context GET =
    Ret (None, Some (formatError badArgument msg_from_after_until context)).
Proof.
  intros Hmp Hst Hfs Hf Hus Hu Hlt. rewrite getListQuery_validate. unfold validate.
  rewrite Hmp, Hst. unfold parse_date_arg. by rewrite Hfs, Hf, Hus, Hu, Hlt.
Qed.

(** C13 (functional).  When every rule passes, the result is the query
    built from the prefix, the set and the two dates, and no error. *)
Theorem valid_request_query context GET mp st f u :
  nonempty (qd_get "metadataPrefix" GET) = Some mp ->
  check_set (qd_get "set" GET) = Ret st ->
  parse_date_arg "from" (qd_get "from" GET) = inr f ->
  parse_date_arg "until" (qd_get "until" GET) = inr u ->
  match f, u with Some f, Some u => dt_lt u f = false | _, _ => True end ->
  illegal_keys GET = [] ->
  getListQuery context GET = Ret (Some (mk_qp mp st f u), None).
Proof.
  intros Hmp Hst Hf Hu Hord Hill. rewrite getListQuery_validate. unfold validate.
  rewrite Hmp, Hst, Hf, Hu, Hill. by destruct f, u; [rewrite Hord| | |].
Qed.

(** C15 (error).  A [set] that names no set of the catalogue makes
    [OaiSet.objects.get] raise [DoesNotExist], which the view does not
    catch: the specification's [badArgument] page is never produced. *)
Theorem unknown_set_raises context GET mp st :
  nonempty (qd_get "metadataPrefix" GET) = Some mp ->
  nonempty (qd_get "set" GET) = Some st ->
  Forall (fun x => set_name x <> st) (db_sets d) ->
  getListQuery context GET = Raise (DoesNotExist "OaiSet").
Proof.
  intros Hmp Hst Hnone. rewrite getListQuery_validate. unfold validate, check_set, oaiset_get.
  rewrite Hmp, Hst, objects_get_none; [done|].
  eapply Forall_impl; [exact Hnone|]. intros x Hx. by apply String.eqb_neq.
Qed.

(** A key of the query outside the five allowed ones is an illegal key. *)
Lemma illegal_keys_In GET k :
  In k (illegal_keys GET) <-> In k (map fst GET) /\ allowed_key k = false.
Proof.
  unfold illegal_keys. rewrite filter_In, dict_iter_qd_dict, negb_true_iff. done.
Qed.

(** C14 (error).  When the filters are all valid but the request carries
    a parameter other than the five allowed ones, the answer is the
    [badArgument] page naming one parameter of the request that is not
    allowed, and only that one.  Which one is the first the dict visits
    (line 115), an order Python leaves to the implementation; the theorem
    holds for every such order. *)
Theorem illegal_argument_named context GET mp st f u k :
  nonempty (qd_get "metadataPrefix" GET) = Some mp ->
  check_set (qd_get "set" GET) = Ret st ->
  parse_date_arg "from" (qd_get "from" GET) = inr f ->
  parse_date_arg "until" (qd_get "until" GET) = inr u ->
  match f, u with Some f, Some u => dt_lt u f = false | _, _ => True end ->
  In k (map fst GET) -> allowed_key k = false ->
  exists k', In k' (map fst GET) /\ allowed_key k' = false /\
    getListQuery context GET = Ret (None, Some (formatError badArgument (msg_illegal k') context)).
Proof.
  intros Hmp Hst Hf Hu Hord Hk Hnot. rewrite getListQuery_validate. unfold validate.
  rewrite Hmp, Hst, Hf, Hu.
  destruct (illegal_keys GET) as [|k' rest] eqn:Hill.
  { exfalso. assert (In k (illegal_keys GET)) as Hin by (by apply illegal_keys_In).
    by rewrite Hill in Hin. }
  assert (In k' (illegal_keys GET)) as Hin by (rewrite Hill; left; done).
  apply illegal_keys_In in Hin as [Hin Hk'].
  exists k'. split_and!; [done|done|]. by destruct f, u; [rewrite Hord| | |].
Qed.

(** C18 (type).  [getListQuery] returns a well-formed query and no
    error, or no query and a [badArgument] page; the only exceptions that
    escape are those of [OaiSet.objects.get]. *)
Theorem getListQuery_result_shape context GET :
  match getListQuery context GET with
  | Ret (Some qp, None) => qp_wf qp
  | Ret (None, Some r) => exists msg, r = formatError badArgument msg context
  | Ret _ => False
  | Raise e => e = DoesNotExist "OaiSet" \/ e = MultipleObjectsReturned "OaiSet"
  end.
Proof. apply getListQuery_shape. Qed.

End Validate.

(** ** The validator with the specification's parser *)

(** C23 (roundtrip).  With the specification's parser, a [from] or
    [until] argument written [YYYY-MM-DD] for a valid date passes the
    validator's date step (lines 92-98, 101-107) and stands for that
    date's midnight. *)
Theorem parse_date_arg_date name dt :
  dt_valid dt = true ->
  @parse_date_arg tolerant_parser name (Some (date_part dt)) = inr (Some (date_of dt)).
Proof.
  intros Hv. unfold parse_date_arg, nonempty. rewrite date_part_nonempty.
  cbv iota. cbn [tolerant_datestamp_to_datetime tolerant_parser].
  by rewrite date_roundtrip.
Qed.


(** ** Witnesses, with the specification's parser and the example store *)

Lemma missing_prefix_bad_argument_witness :
  nonempty (qd_get "metadataPrefix" [("verb", "ListRecords")]) = None /\
  getListQuery Example.store example_context [("verb", "ListRecords")] =
    Ret (None, Some (formatError badArgument msg_prefix_required example_context)).
Proof. split; [reflexivity|]. apply missing_prefix_bad_argument. reflexivity. Defined.

Definition example_dates : list (string * string) :=
  [("verb", "ListRecords"); ("metadataPrefix", "oai_dc");
   ("from", "2014-05-02"); ("until", "2014-05-01T00:00:00Z")].

Lemma from_after_until_bad_argument_witness :
  getListQuery Example.store example_context example_dates =
    Ret (None, Some (formatError badArgument msg_from_after_until example_context)).
Proof.
  eapply (from_after_until_bad_argument Example.store example_context example_dates
            "oai_dc" None "2014-05-02" "2014-05-01T00:00:00Z");
    reflexivity.
Defined.

Definition example_valid : list (string * string) :=
  [("verb", "ListRecords"); ("set", "math"); ("metadataPrefix", "oai_dc");
   ("from", "2014-05-01"); ("until", "2014-05-02")].

Lemma valid_request_query_witness :
  getListQuery Example.store example_context example_valid =
    Ret (Some (mk_qp "oai_dc" (Some "math") (Some (Example.ts 1)) (Some (Example.ts 2))), None).
Proof. apply valid_request_query; reflexivity. Defined.

Definition example_unknown_set : list (string * string) :=
  [("verb", "ListRecords"); ("metadataPrefix", "oai_dc"); ("set", "physics")].

Lemma unknown_set_raises_witness :
  getListQuery Example.store example_context example_unknown_set = Raise (DoesNotExist "OaiSet").
Proof.
  apply (unknown_set_raises Example.store example_context example_unknown_set "oai_dc" "physics");
    [reflexivity|reflexivity|].
  repeat constructor. simpl. discriminate.
Defined.

Definition example_illegal : list (string * string) :=
  [("verb", "ListRecords"); ("foo", "1"); ("metadataPrefix", "oai_dc"); ("bar", "2"); ("foo", "3")].

Lemma illegal_argument_named_witness :
  In "foo" (map fst example_illegal) /\ allowed_key "foo" = false /\
  exists k', In k' (map fst example_illegal) /\ allowed_key k' = false /\
    getListQuery Example.store example_context example_illegal =
      Ret (None, Some (formatError badArgument (msg_illegal k') example_context)).
Proof.
  split_and!; [simpl; tauto|reflexivity|].
  apply (illegal_argument_named Example.store example_context example_illegal "oai_dc" None
           None None "foo"); try reflexivity; simpl; tauto.
Defined.

Lemma parse_date_arg_date_witness :
  dt_valid example_datetime = true /\
  @parse_date_arg tolerant_parser "from" (Some (date_part example_datetime)) =
    inr (Some (date_of example_datetime)).
Proof. split; [reflexivity|]. apply parse_date_arg_date. reflexivity. Defined.

End Validator.
