(* ===== verification/Dispatcher.v ===== *)
(** * The verb dispatcher: [endpoint] and [identify]

    [endpoint] (lines 30-53) is the view Django calls for every request.
    It reads [verb], builds the context shared by every response (the
    request's URL and the request time, to the second, with a [Z]), and
    dispatches: no verb and unknown verbs give a [badVerb] page,
    [Identify] goes to [identify] (lines 55-62), and the two list verbs go
    to [resumeRequest] when a [resumptionToken] parameter is present, and
    otherwise to [getListQuery] then [handleListQuery] from offset 0.

    A request is its host, its full path and its [GET] parameters; the
    request time [datetime.utcnow()] is an argument of [endpoint]. *)

From stdpp Require Import base strings list gmap.
From Stdlib Require Import ZArith Lia.
From S2P Require Import Prelude QueryDict Datestamp DatestampFormat RecordStore TokenStore Response Pagination Validator.

Module Dispatcher.
Import QueryDict Datestamp DatestampFormat RecordStore TokenStore Response Pagination Validator.

Local Open Scope Z_scope.

Record request := mk_request {
  req_host : string;
  req_full_path : string;
  req_GET : list (string * string)
}.

(** Lines 32-36: the context every response starts from. *)
Definition base_context (request : request) (now : datetime) : context :=
  let thisUrl := "http://" +++ req_host request +++ req_full_path request in
  let timestamp := drop_microseconds now in
  mk_ctx thisUrl (isoformat timestamp +++ "Z") None None None None None None None.

Definition msg_no_verb : string := "No verb specified!".

Definition msg_not_implemented (verb : string) : string :=
  "Verb " +++ dq +++ verb +++ dq +++ " is not implemented.".

(** [verb == 'ListRecords' or verb == 'ListIdentifiers']. *)
Definition list_verb (verb : string) : option query_type :=
  if String.eqb verb "ListRecords" then Some ListRecords
  else if String.eqb verb "ListIdentifiers" then Some ListIdentifiers
  else None.

Definition earliest_default : string := "1990-01-01".

Section Dispatch.
Context `{KeyGen} `{DatestampParser} `{DictIter} (cfg : config) (d : db).

Definition identify (request : request) (context : context) : response :=
  let context := ctx_set_baseURL context
                   ("http://" +++ req_host request +++ "/" +++ oai_endpoint_name cfg) in
  let context := match earliest_record d with
                 | Some earliest => ctx_set_earliest context (EDatetime (r_timestamp earliest))
                 | None => ctx_set_earliest context (EString earliest_default)
                 end in
  render_xml "oai/identify.xml" context.

Definition endpoint (request : request) (now : datetime) : PyM token_table response :=
  let verb := qd_get "verb" (req_GET request) in
  let context := base_context request now in
  match nonempty verb with
  | None => py_ret (formatError badVerb msg_no_verb context)
  | Some verb =>
      let params := req_GET request in
      let context := ctx_set_params context (to_kv_pairs params) in
      if String.eqb verb "Identify" then py_ret (identify request context)
      else match list_verb verb with
           | Some queryType =>
               if qd_contains "resumptionToken" params
               then resumeRequest cfg d context queryType
                      (from_option id EmptyString (qd_get "resumptionToken" params))
               else match getListQuery d context params with
                    | Raise e => py_raise e
                    | Ret (_, Some error) => py_ret error
                    | Ret (Some queryParameters, None) =>
                        handleListQuery cfg d context queryType queryParameters 0
                    | Ret (None, None) => py_raise (TypeError "argument after ** must be a mapping")
                    end
           | None => py_ret (formatError badVerb (msg_not_implemented verb) context)
           end
  end.

(** ** The list-verb path *)

Lemma list_verb_not_identify v qt : list_verb v = Some qt -> String.eqb v "Identify" = false.
Proof.
  unfold list_verb. destruct (String.eqb_spec v "ListRecords") as [->|];
    [done|]. destruct (String.eqb_spec v "ListIdentifiers") as [->|]; done.
Qed.

(** The context of every response after the verb check. *)
Definition request_context (request : request) (now : datetime) : context :=
  ctx_set_params (base_context request now) (to_kv_pairs (req_GET request)).

Lemma endpoint_list request now s v qt :
  nonempty (qd_get "verb" (req_GET request)) = Some v -> list_verb v = Some qt ->
  endpoint request now s =
    (if qd_contains "resumptionToken" (req_GET request)
     then resumeRequest cfg d (request_context request now) qt
            (from_option id EmptyString (qd_get "resumptionToken" (req_GET request)))
     else match getListQuery d (request_context request now) (req_GET request) with
          | Raise e => py_raise e
          | Ret (_, Some error) => py_ret error
          | Ret (Some queryParameters, None) =>
              handleListQuery cfg d (request_context request now) qt queryParameters 0
          | Ret (None, None) => py_raise (TypeError "argument after ** must be a mapping")
          end) s.
Proof.
  intros Hv Hqt. unfold endpoint. rewrite Hv, (list_verb_not_identify _ _ Hqt), Hqt.
  reflexivity.
Qed.

Lemma endpoint_resume_path request now s v qt k :
  nonempty (qd_get "verb" (req_GET request)) = Some v -> list_verb v = Some qt ->
  qd_get "resumptionToken" (req_GET request) = Some k ->
  endpoint request now s = resumeRequest cfg d (request_context request now) qt k s.
Proof.
  intros Hv Hqt Hk. rewrite (endpoint_list _ _ _ _ _ Hv Hqt), Hk.
  rewrite (proj2 (qd_contains_get _ _)) by (rewrite Hk; eauto). done.
Qed.

(** Case on every path through [endpoint]: no verb, [Identify], a
    resumption, the four results of [getListQuery], an unknown verb. *)
Ltac endpoint_paths :=
  unfold endpoint;
  destruct (nonempty (qd_get "verb" _)) as [v|] eqn:Hv;
  [destruct (String.eqb v "Identify") eqn:Hid;
   [|destruct (list_verb v) as [qt|] eqn:Hqt;
     [destruct (qd_contains "resumptionToken" _) eqn:Hc;
      [|destruct (getListQuery _ _ _) as [[[qp|] [err|]]|e] eqn:Hq]|]]|].

(** The exceptions a request can end in. *)
Definition allowed_exn (e : exn) : Prop :=
  e = DoesNotExist "OaiSet" \/ e = MultipleObjectsReturned "OaiSet" \/
  e = DoesNotExist "ResumptionToken" \/ e = NameError "queryParameter".

(** ** Properties of the dispatcher *)

(** C19 (error).  A request without a non-empty [verb] gets the
    [badVerb] page "No verb specified!" and leaves the store alone. *)
Theorem endpoint_no_verb request now s :
  nonempty (qd_get "verb" (req_GET request)) = None ->
  endpoint request now s = (Ret (formatError badVerb msg_no_verb (base_context request now)), s).
Proof. intros Hv. unfold endpoint. by rewrite Hv. Qed.

(** C20 (error).  A verb other than the three it implements gets the
    [badVerb] page quoting that verb, and leaves the store alone. *)
Theorem endpoint_unknown_verb request now s v :
  nonempty (qd_get "verb" (req_GET request)) = Some v ->
  String.eqb v "Identify" = false -> list_verb v = None ->
  endpoint request now s =
    (Ret (formatError badVerb (msg_not_implemented v) (request_context request now)), s).
Proof. intros Hv Hid Hl. unfold endpoint. by rewrite Hv, Hid, Hl. Qed.

(** C10 (functional).  For a list verb, a [resumptionToken] parameter
    takes over: the response is the resumption of that key, whatever
    [metadataPrefix], [set], [from], [until] or other parameters say (they
    are only echoed in the context). *)
Theorem endpoint_resumption_token_first request now s v qt k :
  nonempty (qd_get "verb" (req_GET request)) = Some v -> list_verb v = Some qt ->
  qd_get "resumptionToken" (req_GET request) = Some k ->
  endpoint request now s = resumeRequest cfg d (request_context request now) qt k s.
Proof.
  intros Hv Hqt Hk. exact (endpoint_resume_path _ _ _ _ _ _ Hv Hqt Hk).
Qed.

(** C16 (error).  A resumption key that no stored token has makes
    [ResumptionToken.objects.get] raise [DoesNotExist], which the view does
    not catch: the [badResumptionToken] page of line 150 is never
    rendered. *)
Theorem endpoint_unknown_token_raises request now s v qt k :
  nonempty (qd_get "verb" (req_GET request)) = Some v -> list_verb v = Some qt ->
  qd_get "resumptionToken" (req_GET request) = Some k ->
  (forall j t, tt_rows s !! j = Some t -> tk_key t <> Some k) ->
  endpoint request now s = (Raise (DoesNotExist "ResumptionToken"), s).
Proof.
  intros Hv Hqt Hk Hnone. rewrite (endpoint_resume_path _ _ _ _ _ _ Hv Hqt Hk).
  apply resumeRequest_missing. intros j t Ht. unfold token_matches.
  destruct (tk_key t) as [k'|] eqn:E; [|by rewrite andb_false_r].
  destruct (String.eqb_spec k' k) as [->|Hne]; [by destruct (Hnone j t Ht)|].
  simpl. rewrite (proj2 (String.eqb_neq k' k) Hne). apply andb_false_r.
Qed.

(** The fresh-query path: no [resumptionToken], the validator's result. *)
Lemma endpoint_fresh_path request now s v qt :
  nonempty (qd_get "verb" (req_GET request)) = Some v -> list_verb v = Some qt ->
  qd_get "resumptionToken" (req_GET request) = None ->
  endpoint request now s =
    match getListQuery d (request_context request now) (req_GET request) with
    | Raise e => (Raise e, s)
    | Ret (_, Some error) => (Ret error, s)
    | Ret (Some queryParameters, None) =>
        handleListQuery cfg d (request_context request now) qt queryParameters 0 s
    | Ret (None, None) => (Raise (TypeError "argument after ** must be a mapping"), s)
    end.
Proof.
  intros Hv Hqt Hk. rewrite (endpoint_list _ _ _ _ _ Hv Hqt).
  destruct (qd_contains "resumptionToken" (req_GET request)) eqn:Hc.
  - apply qd_contains_get in Hc. rewrite Hk in Hc. by destruct Hc.
  - by destruct (getListQuery _ _ _) as [[[?|] [?|]]|?].
Qed.

(** C17 (error).  A fresh list request whose valid arguments include
    [until] raises [NameError] as soon as its matches exceed one page
    (line 140 names [queryParameter]), before any token is saved: such a
    harvest can never go past its first page. *)
Theorem endpoint_until_query_raises request now s v qt qp :
  nonempty (qd_get "verb" (req_GET request)) = Some v -> list_verb v = Some qt ->
  qd_get "resumptionToken" (req_GET request) = None ->
  getListQuery d (request_context request now) (req_GET request) = Ret (Some qp, None) ->
  qp_until qp <> None ->
  results_limit cfg < Z.of_nat (length (objects_filter d qp)) ->
  endpoint request now s = (Raise (NameError "queryParameter"), s).
Proof.
  intros Hv Hqt Hk Hq Hu Hmore. rewrite (endpoint_fresh_path _ _ _ _ _ Hv Hqt Hk), Hq.
  destruct (qp_until qp) as [u|] eqn:Eu; [|done].
  apply (handleListQuery_until _ _ _ _ _ _ _ u); [done|lia].
Qed.

(** One request keeps the store invariant. *)
Lemma endpoint_store_inv request now s :
  0 <= results_limit cfg -> store_inv cfg s -> store_inv cfg (endpoint request now s).2.
Proof.
  intros HL Hinv. endpoint_paths; simpl; try done.
  - by apply resumeRequest_inv.
  - apply handleListQuery_inv; [lia|done|done].
Qed.

(** C5 (safety).  Under the store invariant a request ends in a page or
    an error page whose code is [badVerb] or [badArgument] (never
    [badResumptionToken]), or in one of four uncaught exceptions: the two
    of [OaiSet.objects.get], [DoesNotExist] for an unknown resumption key
    and the [NameError] of line 140.  In particular slicing never fails
    and [get] never finds two tokens. *)
Theorem endpoint_outcomes request now s :
  0 <= results_limit cfg -> store_inv cfg s ->
  match (endpoint request now s).1 with
  | Ret r => resp_template r = error_template ->
             c_errorCode (resp_context r) = Some badVerb \/
             c_errorCode (resp_context r) = Some badArgument
  | Raise e => allowed_exn e
  end.
Proof.
  intros HL Hinv. endpoint_paths; simpl.
  - (* Identify *) discriminate.
  - (* resumption *)
    pose proof (resumeRequest_outcome cfg d (ctx_set_params (base_context request now) (to_kv_pairs (req_GET request))) qt
                  (from_option id EmptyString (qd_get "resumptionToken" (req_GET request)))
                  s HL Hinv) as Hout.
    destruct (resumeRequest _ _ _ _ _ _) as [[r|e] s']; simpl in *.
    + intros Ht. rewrite (proj1 Hout) in Ht. by destruct qt.
    + subst e. unfold allowed_exn. auto.
  - pose proof (getListQuery_shape d (ctx_set_params (base_context request now) (to_kv_pairs (req_GET request))) (req_GET request)) as Hs.
    by rewrite Hq in Hs.
  - (* fresh query *)
    pose proof (handleListQuery_outcome cfg d (ctx_set_params (base_context request now) (to_kv_pairs (req_GET request))) qt qp 0 s
                  ltac:(lia) HL (proj1 Hinv)) as Hout.
    destruct (handleListQuery _ _ _ _ _ _ _) as [[r|e] s']; simpl in *.
    + intros Ht. rewrite (proj1 Hout) in Ht. by destruct qt.
    + destruct Hout as [-> _]. unfold allowed_exn. auto.
  - (* validation error *)
    pose proof (getListQuery_shape d (ctx_set_params (base_context request now) (to_kv_pairs (req_GET request))) (req_GET request)) as Hs.
    rewrite Hq in Hs. destruct Hs as [msg ->]. intros _. by right.
  - pose proof (getListQuery_shape d (ctx_set_params (base_context request now) (to_kv_pairs (req_GET request))) (req_GET request)) as Hs.
    by rewrite Hq in Hs.
  - pose proof (getListQuery_shape d (ctx_set_params (base_context request now) (to_kv_pairs (req_GET request))) (req_GET request)) as Hs.
    rewrite Hq in Hs. unfold allowed_exn. naive_solver.
  - (* unknown verb *) intros _. by left.
  - (* no verb *) intros _. by left.
Qed.

(** C21 (functional).  Every page or error page a request produces
    carries the request's URL and the one timestamp taken at dispatch, the
    request time to the second with a [Z], on every path. *)
Theorem endpoint_echoes request now s r :
  0 <= results_limit cfg -> store_inv cfg s -> (endpoint request now s).1 = Ret r ->
  c_thisUrl (resp_context r) = "http://" +++ req_host request +++ req_full_path request /\
  c_timestamp (resp_context r) = isoformat (drop_microseconds now) +++ "Z".
Proof.
  intros HL Hinv. endpoint_paths; simpl; try discriminate; try (intros [=<-]; done).
  - intros [=<-]. unfold identify. by destruct (earliest_record d).
  - pose proof (resumeRequest_outcome cfg d (ctx_set_params (base_context request now) (to_kv_pairs (req_GET request))) qt
                  (from_option id EmptyString (qd_get "resumptionToken" (req_GET request)))
                  s HL Hinv) as Hout.
    destruct (resumeRequest _ _ _ _ _ _) as [[r'|e] s']; simpl in *; [|discriminate].
    intros [=<-]. destruct Hout as [_ (-> & -> & _)]. done.
  - pose proof (getListQuery_shape d (ctx_set_params (base_context request now) (to_kv_pairs (req_GET request))) (req_GET request)) as Hs.
    by rewrite Hq in Hs.
  - pose proof (handleListQuery_outcome cfg d (ctx_set_params (base_context request now) (to_kv_pairs (req_GET request))) qt qp 0 s
                  ltac:(lia) HL (proj1 Hinv)) as Hout.
    destruct (handleListQuery _ _ _ _ _ _ _) as [[r'|e] s']; simpl in *; [|discriminate].
    intros [=<-]. destruct Hout as [_ (-> & -> & _)]. done.
  - pose proof (getListQuery_shape d (ctx_set_params (base_context request now) (to_kv_pairs (req_GET request))) (req_GET request)) as Hs.
    rewrite Hq in Hs. destruct Hs as [msg ->]. intros [=<-]. done.
Qed.

(** C22 (functional).  [Identify] answers with the base URL and the
    earliest datestamp: the timestamp of a stored record that no record
    precedes, or ['1990-01-01'] exactly when the store is empty; the token
    store is untouched. *)
Theorem endpoint_identify request now s :
  qd_get "verb" (req_GET request) = Some "Identify" ->
  exists r, endpoint request now s = (Ret r, s) /\
    resp_template r = "oai/identify.xml" /\
    c_baseURL (resp_context r) =
      Some ("http://" +++ req_host request +++ "/" +++ oai_endpoint_name cfg) /\
    match c_earliestDatestamp (resp_context r) with
    | Some (EDatetime t) =>
        Exists (fun x => r_timestamp x = t) (db_records d) /\
        Forall (fun x => dt_lt (r_timestamp x) t = false) (db_records d)
    | Some (EString e) => e = earliest_default /\ db_records d = []
    | None => False
    end.
Proof.
  intros Hv. unfold endpoint. rewrite Hv. simpl. eexists. split; [reflexivity|].
  unfold identify, earliest_record.
  destruct (first_by_timestamp (db_records d)) as [x|] eqn:E; simpl; split_and!; try done.
  - apply Exists_exists. exists x. split; [|done].
    by apply list_elem_of_In, first_by_timestamp_in.
  - by apply first_by_timestamp_least.
  - by apply first_by_timestamp_none.
Qed.

End Dispatch.

(** ** The server over time

    The token tables a server reaches from an empty table by any sequence
    of requests, the record store being free to change between requests
    (the harvesting job of [oai/tasks.py] refreshes it). *)
Inductive reachable `{KeyGen} `{DatestampParser} `{DictIter} (cfg : config) : token_table -> Prop :=
| reach_init : reachable cfg empty_table
| reach_step (d : db) (request : request) (now : datetime) (s : token_table) :
    reachable cfg s -> reachable cfg (endpoint cfg d request now s).2.

(** C4 (invariant).  Every reachable token table is well formed (each
    row under its own primary key, below the counter, with the key
    generated from it) and every stored token is within its bounds: its
    offset a page boundary inside its result set, its cursor one page
    earlier, no [until]. *)
Theorem reachable_store_inv `{KeyGen} `{DatestampParser} `{DictIter} cfg s :
  0 <= results_limit cfg -> reachable cfg s -> store_inv cfg s.
Proof.
  intros HL Hr. induction Hr as [|d request now s Hr IH].
  - apply empty_store_inv.
  - by apply endpoint_store_inv.
Qed.

(** ** Witnesses: requests against the example store *)

Definition example_now : datetime := mk_datetime 2014 6 7 8 9 5 123456.

Definition example_request (GET : list (string * string)) : request :=
  mk_request "example.org" "/oai" GET.

Definition run (GET : list (string * string)) (s : token_table) : outcome response * token_table :=
  endpoint example_config Example.store (example_request GET) example_now s.

Lemma endpoint_no_verb_witness :
  run [] empty_table =
    (Ret (formatError badVerb msg_no_verb (base_context (example_request []) example_now)),
     empty_table).
Proof. apply endpoint_no_verb. reflexivity. Defined.

Lemma endpoint_unknown_verb_witness :
  run [("verb", "GetRecord")] empty_table =
    (Ret (formatError badVerb (msg_not_implemented "GetRecord")
            (request_context (example_request [("verb", "GetRecord")]) example_now)),
     empty_table).
Proof. apply endpoint_unknown_verb; reflexivity. Defined.

Definition example_resume : list (string * string) :=
  [("verb", "ListRecords"); ("metadataPrefix", "other"); ("set", "nowhere"); ("resumptionToken", "1")].

Lemma endpoint_resumption_token_first_witness :
  run example_resume example_run.2 =
    resumeRequest example_config Example.store (request_context (example_request example_resume) example_now)
      ListRecords "1" example_run.2.
Proof. eapply endpoint_resumption_token_first; reflexivity. Defined.

Lemma example_run_rows : tt_rows example_run.2 = <[1 := example_token]> ∅.
Proof. reflexivity. Qed.

Definition example_unknown_key : list (string * string) :=
  [("verb", "ListIdentifiers"); ("resumptionToken", "7")].

Lemma endpoint_unknown_token_raises_witness :
  run example_unknown_key example_run.2 = (Raise (DoesNotExist "ResumptionToken"), example_run.2).
Proof.
  eapply (endpoint_unknown_token_raises _ _ _ _ _ "ListIdentifiers" ListIdentifiers "7");
    [reflexivity|reflexivity|reflexivity|].
  intros j t Hj. rewrite example_run_rows in Hj.
  apply lookup_insert_Some in Hj as [[_ <-]|[_ Hj]]; [vm_compute; discriminate|].
  by rewrite lookup_empty in Hj.
Defined.

Definition example_until : list (string * string) :=
  [("verb", "ListRecords"); ("metadataPrefix", "oai_dc"); ("until", "2015-01-01")].

Lemma endpoint_until_query_raises_witness :
  run example_until empty_table = (Raise (NameError "queryParameter"), empty_table).
Proof.
  eapply (endpoint_until_query_raises _ _ _ _ _ "ListRecords" ListRecords
            (mk_qp "oai_dc" None None (Some (mk_datetime 2015 1 1 0 0 0 0))));
    [reflexivity|reflexivity|reflexivity|reflexivity|discriminate|vm_compute; reflexivity].
Defined.

Definition example_list : list (string * string) :=
  [("verb", "ListRecords"); ("metadataPrefix", "oai_dc")].

Lemma reachable_store_inv_witness :
  store_inv example_config (run example_list empty_table).2.
Proof.
  apply reachable_store_inv; [simpl; lia|]. apply reach_step, reach_init.
Defined.

Lemma endpoint_outcomes_witness :
  match (run example_unknown_key example_run.2).1 with
  | Ret r => resp_template r = error_template ->
             c_errorCode (resp_context r) = Some badVerb \/
             c_errorCode (resp_context r) = Some badArgument
  | Raise e => allowed_exn e
  end.
Proof.
  apply endpoint_outcomes; [simpl; lia|].
  apply handleListQuery_inv; [lia|simpl; lia|apply empty_store_inv].
Defined.

Lemma endpoint_echoes_witness :
  exists r, (run example_list empty_table).1 = Ret r /\
    c_thisUrl (resp_context r) = "http://example.org/oai" /\
    c_timestamp (resp_context r) = "2014-06-07T08:09:05Z".
Proof.
  eexists. split; [reflexivity|].
  eapply (endpoint_echoes example_config Example.store (example_request example_list) example_now
            empty_table);
    [simpl; lia|apply empty_store_inv|reflexivity].
Defined.

Lemma endpoint_identify_witness :
  exists r, run [("verb", "Identify")] empty_table = (Ret r, empty_table) /\
    resp_template r = "oai/identify.xml" /\
    c_baseURL (resp_context r) = Some ("http://example.org/oai") /\
    match c_earliestDatestamp (resp_context r) with
    | Some (EDatetime t) =>
        Exists (fun x => r_timestamp x = t) (db_records Example.store) /\
        Forall (fun x => dt_lt (r_timestamp x) t = false) (db_records Example.store)
    | Some (EString e) => e = earliest_default /\ db_records Example.store = []
    | None => False
    end.
Proof. apply endpoint_identify. reflexivity. Defined.

(** C24 (roundtrip).  The response date every response carries
    ([timestamp], lines 33-36: [utcnow()] without microseconds,
    [isoformat()] and [Z]) is a datestamp the specification's parser
    accepts, and it reads back as the request time to the second. *)
Theorem response_date_roundtrip request now :
  dt_valid now = true ->
  tolerant_parse (c_timestamp (base_context request now)) = Some (drop_microseconds now).
Proof.
  intros Hv. apply isoformat_roundtrip; [by apply dt_valid_drop_microseconds|done].
Qed.

Lemma response_date_roundtrip_witness :
  dt_valid example_now = true /\
  tolerant_parse (c_timestamp (base_context (example_request [("verb", "Identify")]) example_now)) =
    Some (drop_microseconds example_now).
Proof. split; [reflexivity|]. apply response_date_roundtrip. reflexivity. Defined.

End Dispatcher.
