(* ===== verification/Harvest.v ===== *)
(** * Harvests: following the chain of resumption tokens

    A harvesting client sends a list request, then resumes with the key of
    each token it receives until a page comes without a token.  [follow]
    is that client, with a bound on the number of resumptions and the way
    it resumes as a parameter; it is the protocol's use of the view, not
    code of the repository.  The theorems are the engine's contract: from
    a fresh query, the chain of pages ends, after exactly as many
    resumptions as there are further pages, and the pages, concatenated,
    are the query's matches, each delivered once and in order, whether
    the client calls [resumeRequest] or sends [endpoint] requests. *)

From stdpp Require Import base strings list gmap.
From Stdlib Require Import ZArith Lia.
From S2P Require Import Prelude QueryDict Datestamp RecordStore TokenStore Response Pagination Validator Dispatcher.

Module Harvest.
Import QueryDict Datestamp RecordStore TokenStore Response Pagination Validator Dispatcher.

Local Open Scope Z_scope.

Section Follow.
Context `{KeyGen} (cfg : config) (d : db).

(** The client: the page of the response, then the pages of the chain
    its token starts, each fetched with [resume] applied to the token's
    key; [None] when a resumption fails or the bound is reached first. *)
Fixpoint follow (fuel : nat) (resume : string -> PyM token_table response) (r : response)
    (s : token_table) : option (list oai_record) :=
  let pg := from_option id [] (c_matches (resp_context r)) in
  match c_token (resp_context r) with
  | None => Some pg
  | Some t =>
      match fuel, tk_key t with
      | S f, Some k =>
          match resume k s with
          | (Ret r', s') => (fun rest => pg ++ rest) <$> follow f resume r' s'
          | (Raise _, _) => None
          end
      | _, _ => None
      end
  end.

(** A way of resuming: [resumeRequest] for the key, in some context that
    holds no token yet, as every context [endpoint] builds. *)
Definition resumes_by (qt : query_type) (resume : string -> PyM token_table response) : Prop :=
  forall k s, exists ctx', c_token ctx' = None /\ resume k s = resumeRequest cfg d ctx' qt k s.

(** A list query without [until] always answers. *)
Lemma handleListQuery_answers ctx qt qp o s :
  0 <= o -> 0 <= results_limit cfg -> table_wf s -> qp_until qp = None ->
  exists r s', handleListQuery cfg d ctx qt qp o s = (Ret r, s').
Proof.
  intros Ho HL Hwf Hu.
  pose proof (handleListQuery_outcome cfg d ctx qt qp o s Ho HL Hwf) as Hout.
  destruct (handleListQuery cfg d ctx qt qp o s) as [[r|e] s']; simpl in Hout; [eauto|].
  by destruct Hout as [_ []].
Qed.

Lemma page_then_rest (ms : list oai_record) o :
  0 <= o -> 0 <= results_limit cfg ->
  page cfg ms o ++ drop (Z.to_nat (o + results_limit cfg)) ms = drop (Z.to_nat o) ms.
Proof.
  intros Ho HL. unfold page. rewrite Z2Nat.inj_add by lia. apply page_app_rest.
Qed.

(** One link of the chain: the page at [o] came with a fresh token; the
    client resumes it, which re-runs the query from the next page in the
    context [resume] uses. *)
Lemma follow_token_step qt qp resume fuel ctx o s :
  resumes_by qt resume -> 0 <= o -> 0 < results_limit cfg -> store_inv cfg s ->
  qp_until qp = None -> qp_set_ok qp ->
  let ms := objects_filter d qp in
  let t := created_token cfg qt qp (o + results_limit cfg) (Z.of_nat (length ms)) (tt_next_id s) in
  handleListQuery cfg d ctx qt qp o s =
    (Ret (render_xml (list_template qt) (ctx_set_matches (ctx_set_token ctx t) (page cfg ms o))),
     table_add s t) ->
  exists ctx' r2 s2, c_token ctx' = None /\ store_inv cfg (table_add s t) /\
    handleListQuery cfg d ctx' qt qp (o + results_limit cfg) (table_add s t) = (Ret r2, s2) /\
    follow (S fuel) resume
      (render_xml (list_template qt) (ctx_set_matches (ctx_set_token ctx t) (page cfg ms o)))
      (table_add s t) =
    (fun rest => page cfg ms o ++ rest) <$> follow fuel resume r2 s2.
Proof.
  intros Hres Ho HL Hinv Hu Hset ms t Hrun.
  assert (store_inv cfg (table_add s t)) as Hinv'.
  { pose proof (handleListQuery_inv cfg d ctx qt qp o s Ho ltac:(lia) Hinv) as Hi.
    by rewrite Hrun in Hi. }
  destruct (Hres (genkey_of (tt_next_id s)) (table_add s t)) as (ctx' & Hctx' & Hr).
  destruct (handleListQuery_answers ctx' qt qp (o + results_limit cfg) (table_add s t)
              ltac:(lia) ltac:(lia) (proj1 Hinv') Hu) as (r2 & s2 & Hr2).
  exists ctx', r2, s2. split_and!; [done|done|done|].
  simpl. rewrite Hr. unfold t. rewrite resume_created by (try apply Hinv; done).
  fold t. by rewrite Hr2.
Qed.

(** From the page at offset [o], enough resumptions deliver everything
    from [o] on. *)
Lemma follow_from qt qp resume fuel :
  resumes_by qt resume ->
  forall ctx o s r s',
  0 <= o -> 0 < results_limit cfg -> store_inv cfg s ->
  qp_until qp = None -> qp_set_ok qp -> c_token ctx = None ->
  handleListQuery cfg d ctx qt qp o s = (Ret r, s') ->
  Z.of_nat (length (objects_filter d qp)) <= o + results_limit cfg * Z.of_nat (S fuel) ->
  follow fuel resume r s' = Some (drop (Z.to_nat o) (objects_filter d qp)).
Proof.
  intros Hres. induction fuel as [|fuel IH]; intros ctx o s r s' Ho HL Hinv Hu Hset Hctx Hrun' Hbound;
    pose proof Hinv as [Hwf _];
    destruct (handleListQuery_cases cfg d ctx qt qp o s Ho ltac:(lia) Hwf) as
      [[Hlast Hrun]|[[tnew [Htnew [_ [Htinv Hrun]]]]|[Hu' _]]]; try done.
  - rewrite Hrun in Hrun'. simplify_eq. simpl. rewrite Hctx. simpl. f_equal. apply page_last; lia.
  - subst tnew. destruct Htinv as [Hoff _]. simpl in Hoff. lia.
  - rewrite Hrun in Hrun'. simplify_eq. simpl. rewrite Hctx. simpl. f_equal. apply page_last; lia.
  - subst tnew. destruct (follow_token_step qt qp resume fuel ctx o s Hres Ho HL Hinv Hu Hset Hrun)
      as (ctx' & r2 & s2 & Hctx' & Hinv' & Hr2 & Hstep).
    rewrite Hrun in Hrun'. simplify_eq. rewrite Hstep.
    rewrite (IH ctx' (o + results_limit cfg)
      (table_add s (created_token cfg qt qp (o + results_limit cfg)
         (Z.of_nat (length (objects_filter d qp))) (tt_next_id s))) r2 s2); try done; try lia.
    simpl. f_equal. apply page_then_rest; lia.
Qed.

(** With fewer resumptions than further pages the client gives up. *)
Lemma follow_from_short qt qp resume fuel :
  resumes_by qt resume ->
  forall ctx o s r s',
  0 <= o -> 0 < results_limit cfg -> store_inv cfg s ->
  qp_until qp = None -> qp_set_ok qp -> c_token ctx = None ->
  handleListQuery cfg d ctx qt qp o s = (Ret r, s') ->
  o + results_limit cfg * Z.of_nat (S fuel) < Z.of_nat (length (objects_filter d qp)) ->
  follow fuel resume r s' = None.
Proof.
  intros Hres. induction fuel as [|fuel IH]; intros ctx o s r s' Ho HL Hinv Hu Hset Hctx Hrun' Hbound;
    pose proof Hinv as [Hwf _];
    destruct (handleListQuery_cases cfg d ctx qt qp o s Ho ltac:(lia) Hwf) as
      [[Hlast Hrun]|[[tnew [Htnew [_ [Htinv Hrun]]]]|[Hu' _]]]; try done; try lia.
  - rewrite Hrun in Hrun'. simplify_eq. done.
  - subst tnew. destruct (follow_token_step qt qp resume fuel ctx o s Hres Ho HL Hinv Hu Hset Hrun)
      as (ctx' & r2 & s2 & Hctx' & Hinv' & Hr2 & Hstep).
    rewrite Hrun in Hrun'. simplify_eq. rewrite Hstep.
    by rewrite (IH ctx' (o + results_limit cfg)
      (table_add s (created_token cfg qt qp (o + results_limit cfg)
         (Z.of_nat (length (objects_filter d qp))) (tt_next_id s))) r2 s2); try done; try lia.
Qed.

(** C1 (liveness).  A harvest terminates and is complete: from the first
    page of a query without [until], following the tokens delivers, after
    at most [fuel] resumptions whenever [fuel + 1] pages hold the matches,
    all the matches of the query, each exactly once and in the store's
    order. *)
Theorem harvest_complete ctx qt qp s r s1 fuel :
  0 < results_limit cfg -> store_inv cfg s ->
  qp_until qp = None -> qp_set_ok qp -> c_token ctx = None ->
  handleListQuery cfg d ctx qt qp 0 s = (Ret r, s1) ->
  Z.of_nat (length (objects_filter d qp)) <= results_limit cfg * Z.of_nat (S fuel) ->
  follow fuel (resumeRequest cfg d ctx qt) r s1 = Some (objects_filter d qp).
Proof.
  intros HL Hinv Hu Hset Hctx Hrun Hbound.
  assert (resumes_by qt (resumeRequest cfg d ctx qt)) as Hres by (intros k s'; by exists ctx).
  rewrite (follow_from qt qp _ fuel Hres ctx 0 s r s1); try done; lia.
Qed.

(** C30 (termination).  The number of resumptions a harvest takes is
    exact: from the first page of a query without [until], the client
    with [fuel] resumptions finishes exactly when [fuel + 1] pages of
    [results_limit] records hold the matches, i.e. the chain of tokens
    is [ceil(N / results_limit) - 1] links long. *)
Theorem harvest_resumptions_exact ctx qt qp s r s1 fuel :
  0 < results_limit cfg -> store_inv cfg s ->
  qp_until qp = None -> qp_set_ok qp -> c_token ctx = None ->
  handleListQuery cfg d ctx qt qp 0 s = (Ret r, s1) ->
  is_Some (follow fuel (resumeRequest cfg d ctx qt) r s1) <->
  Z.of_nat (length (objects_filter d qp)) <= results_limit cfg * Z.of_nat (S fuel).
Proof.
  intros HL Hinv Hu Hset Hctx Hrun.
  assert (resumes_by qt (resumeRequest cfg d ctx qt)) as Hres by (intros k s'; by exists ctx).
  split.
  - intros Hsome. destruct (Z.le_gt_cases (Z.of_nat (length (objects_filter d qp)))
      (results_limit cfg * Z.of_nat (S fuel))) as [|Hgt]; [done|].
    rewrite (follow_from_short qt qp _ fuel Hres ctx 0 s r s1) in Hsome; try done; lia.
  - intros Hbound. rewrite (follow_from qt qp _ fuel Hres ctx 0 s r s1); try done; lia.
Qed.

End Follow.

(** ** Harvests through [endpoint]

    The harvester of the protocol: a first list request, then requests
    [?verb=<verb>&resumptionToken=<key>] for each token received, each
    answered by [endpoint]. *)

Section Http.
Context `{KeyGen} `{DatestampParser} `{DictIter} (cfg : config) (d : db).

(** The request that resumes with [key]. *)
Definition resume_request (host path verb key : string) : request :=
  mk_request host path [("verb", verb); ("resumptionToken", key)].

Definition http_resume (host path verb : string) (now : datetime)
    : string -> PyM token_table response :=
  fun key => endpoint cfg d (resume_request host path verb key) now.

Lemma list_verb_nonempty v qt : list_verb v = Some qt -> nonempty (Some v) = Some v.
Proof.
  intros Hqt. simpl. destruct (String.eqb_spec v ""); [|done]. by subst.
Qed.

(** Each resumption request is answered by [resumeRequest] in the
    context [endpoint] builds, which holds no token. *)
Lemma http_resumes_by host path verb qt now :
  list_verb verb = Some qt -> resumes_by cfg d qt (http_resume host path verb now).
Proof.
  intros Hqt k s. exists (request_context (resume_request host path verb k) now).
  split; [done|]. apply (endpoint_resume_path cfg d _ now s verb qt k); [|done|reflexivity].
  apply (list_verb_nonempty _ _ Hqt).
Qed.

(** C32 (liveness).  A harvest driven through [endpoint] requests is
    complete: when the first list request validates to a query without
    [until], resuming with the key of each token received, in requests of
    the same verb, ends after at most [fuel] requests whenever [fuel + 1]
    pages hold the matches, and the pages are all the query's matches in
    order, each once. *)
Theorem harvest_via_endpoint req0 now s r s1 fuel v qt qp host path :
  0 < results_limit cfg -> store_inv cfg s ->
  nonempty (qd_get "verb" (req_GET req0)) = Some v -> list_verb v = Some qt ->
  qd_get "resumptionToken" (req_GET req0) = None ->
  getListQuery d (request_context req0 now) (req_GET req0) = Ret (Some qp, None) ->
  qp_until qp = None ->
  endpoint cfg d req0 now s = (Ret r, s1) ->
  Z.of_nat (length (objects_filter d qp)) <= results_limit cfg * Z.of_nat (S fuel) ->
  follow fuel (http_resume host path v now) r s1 = Some (objects_filter d qp).
Proof.
  intros HL Hinv Hv Hqt Hk Hq Hu Hrun Hbound.
  rewrite (endpoint_fresh_path cfg d req0 now s v qt Hv Hqt Hk), Hq in Hrun.
  pose proof (getListQuery_shape d (request_context req0 now) (req_GET req0)) as Hshape.
  rewrite Hq in Hshape. destruct Hshape as (_ & Hset & _).
  rewrite (follow_from cfg d qt qp _ fuel (http_resumes_by host path v qt now Hqt)
             (request_context req0 now) 0 s r s1); try done; lia.
Qed.

End Http.

(** ** Witnesses: the specification's scenario, page size 2, records at t1 < t2 < t3 *)

Definition scenario_first : outcome response * token_table :=
  handleListQuery example_config Example.store example_context ListRecords Example.query 0
    empty_table.

Lemma harvest_complete_witness :
  follow 1
    (resumeRequest example_config Example.store example_context ListRecords)
    (match scenario_first.1 with Ret r => r | Raise _ => render_xml "" example_context end)
    scenario_first.2 =
  Some (objects_filter Example.store Example.query).
Proof.
  eapply harvest_complete;
    [simpl; lia|apply empty_store_inv|reflexivity|exact I|reflexivity|reflexivity|simpl; lia].
Defined.

Lemma harvest_resumptions_exact_witness :
  is_Some (follow 1
    (resumeRequest example_config Example.store example_context ListRecords)
    (match scenario_first.1 with Ret r => r | Raise _ => render_xml "" example_context end)
    scenario_first.2) /\
  follow 0
    (resumeRequest example_config Example.store example_context ListRecords)
    (match scenario_first.1 with Ret r => r | Raise _ => render_xml "" example_context end)
    scenario_first.2 = None.
Proof.
  split.
  - apply (harvest_resumptions_exact example_config Example.store example_context ListRecords
      Example.query empty_table);
      [simpl; lia|apply empty_store_inv|reflexivity|exact I|reflexivity|reflexivity|simpl; lia].
  - vm_compute. reflexivity.
Defined.

(** The first request of a harvest of the example store. *)
Definition harvest_GET : list (string * string) :=
  [("verb", "ListRecords"); ("metadataPrefix", "oai_dc")].

Definition harvest_first : outcome response * token_table := run harvest_GET empty_table.

Definition harvest_first_response : response :=
  match harvest_first.1 with Ret r => r | Raise _ => render_xml "" example_context end.

Lemma harvest_via_endpoint_witness :
  follow 1 (http_resume example_config Example.store "example.org" "/oai" "ListRecords" example_now)
    harvest_first_response harvest_first.2 = Some (objects_filter Example.store Example.query).
Proof.
  apply (harvest_via_endpoint example_config Example.store (example_request harvest_GET)
           example_now empty_table harvest_first_response harvest_first.2 1 "ListRecords"
           ListRecords Example.query);
    [simpl; lia|apply empty_store_inv|vm_compute; reflexivity|reflexivity|vm_compute; reflexivity
    |vm_compute; reflexivity|reflexivity|vm_compute; reflexivity|simpl; lia].
Defined.

End Harvest.
