(* ===== verification/SourceRefresh.v ===== *)
(** * Source refresh: the [updateSource] view

    [updateSource(request, pk)] (lines 20-23) looks the source up with
    [get_object_or_404(OaiSource, pk=pk)], schedules the Celery task
    [fetch_from_source] to run now with [kwargs={'pk': pk}], and renders
    ['oai/updateSource.html'] with the source.  The [OaiSource] model and
    the task live outside [src/]: a source is its primary key and name,
    and the scheduler is the queue of tasks [apply_async] appends to.

    The order of the two effects matters: the lookup comes first, so an
    unknown key raises [Http404] before anything is scheduled. *)

From stdpp Require Import base strings list gmap.
From Stdlib Require Import ZArith Lia.
From S2P Require Import Prelude Datestamp.

Module SourceRefresh.
Import Datestamp.

Local Open Scope Z_scope.

Record oai_source := mk_source {
  source_pk : Z;
  source_name : string
}.

(** A task [apply_async] queued: the task's name, its [eta] and its
    keyword arguments (here only [pk]). *)
Record task := mk_task {
  task_name : string;
  task_eta : datetime;
  task_pk : Z
}.

(** The page [render] returns: the template and the context [{'source': source}]. *)
Record html_page := mk_page {
  page_template : string;
  page_source : oai_source
}.

(** The [OaiSource] table by primary key. *)
Abbreviation source_table := (gmap Z oai_source) (only parsing).

(** [get_object_or_404(OaiSource, pk=pk)]. *)
Definition get_object_or_404 (sources : source_table) (pk : Z) : outcome oai_source :=
  match sources !! pk with
  | Some s => Ret s
  | None => Raise (Http404 "OaiSource")
  end.

(** [fetch_from_source.apply_async(eta=now, kwargs={'pk': pk})]: the task
    joins the end of the queue. *)
Definition apply_async (t : task) : PyM (list task) unit :=
  fun q => (Ret tt, q ++ [t]).

(** [timezone.now()] is the request time [now]. *)
Definition updateSource (sources : source_table) (now : datetime) (pk : Z)
    : PyM (list task) html_page :=
  source <- py_lift (get_object_or_404 sources pk) ;;
  _ <- apply_async (mk_task "fetch_from_source" now pk) ;;
  py_ret (mk_page "oai/updateSource.html" source).

(** ** Theorems *)

(** C25 (functional).  For a known source, [updateSource] schedules
    exactly one [fetch_from_source] task, for that source and due now,
    after the tasks already queued, and renders the source's page. *)
Theorem updateSource_found sources now pk src q :
  sources !! pk = Some src ->
  updateSource sources now pk q =
    (Ret (mk_page "oai/updateSource.html" src), q ++ [mk_task "fetch_from_source" now pk]).
Proof. intros Hs. unfold updateSource, get_object_or_404. by rewrite Hs. Qed.

(** C26 (error).  For an unknown primary key [updateSource] raises
    [Http404] and schedules nothing: the lookup precedes the task. *)
Theorem updateSource_missing sources now pk q :
  sources !! pk = None ->
  updateSource sources now pk q = (Raise (Http404 "OaiSource"), q).
Proof. intros Hs. unfold updateSource, get_object_or_404. by rewrite Hs. Qed.

(** ** Witnesses *)

Definition example_sources : source_table := {[ 1 := mk_source 1 "arXiv" ]}.

Definition example_time : datetime := mk_datetime 2014 6 7 8 9 5 0.

Lemma updateSource_found_witness :
  example_sources !! 1 = Some (mk_source 1 "arXiv") /\
  updateSource example_sources example_time 1 [] =
    (Ret (mk_page "oai/updateSource.html" (mk_source 1 "arXiv")),
     [mk_task "fetch_from_source" example_time 1]).
Proof. split; [reflexivity|]. apply (updateSource_found _ _ _ _ []). reflexivity. Defined.

Lemma updateSource_missing_witness :
  example_sources !! 2 = None /\
  updateSource example_sources example_time 2 [] = (Raise (Http404 "OaiSource"), []).
Proof. split; [reflexivity|]. apply updateSource_missing. reflexivity. Defined.

End SourceRefresh.
